(** * vscode-code-review: the review comment service

    A shallow embedding of [src/review-comment.ts] (class
    [ReviewCommentService]) and the properties of its three store
    operations and of its remote URL builder.

    Strings are [string], arrays are lists indexed with stdpp's lookup,
    insert and delete, JavaScript numbers that hold line numbers are
    [option Z], and the file system and the notification channel are an
    explicit state threaded through a small state monad. *)

From Stdlib Require Import ZArith Ascii String DecimalString.
From stdpp Require Import base option list strings.

Local Open Scope Z_scope.

(** ** JavaScript primitives used by the service *)

Module JS.

(** The line feed, the carriage return and the quote character. *)
Definition LF : string := String "010"%char "".
Definition CR : string := String "013"%char "".
Definition DQUOTE : string := String "034"%char "".

(** Truthiness of a string: every string but the empty one. *)
Definition truthy (s : string) : bool :=
  match s with
  | EmptyString => false
  | String _ _ => true
  end.

(** A number argument that may be missing: [None] is [undefined] (and
    [NaN], which every test of the code treats the same way). *)
Definition number : Type := option Z.

(** Truthiness of a number: defined and not zero. *)
Definition truthyNum (n : number) : bool :=
  match n with
  | Some z => negb (z =? 0)
  | None => false
  end.

(** [Number.prototype.toString] on an integer, and the string a
    template literal inserts for a number. *)
Definition toString (z : Z) : string := NilZero.string_of_int (Z.to_int z).

Definition numToString (n : number) : string :=
  match n with
  | Some z => toString z
  | None => "undefined"
  end.

(** [String.prototype.startsWith]. *)
Fixpoint startsWith (s pat : string) {struct pat} : bool :=
  match pat with
  | EmptyString => true
  | String a pat' =>
      match s with
      | EmptyString => false
      | String c s' => Ascii.eqb c a && startsWith s' pat'
      end
  end.

(** [s.slice(n)]: [s] without its first [n] characters. *)
Fixpoint dropChars (n : nat) (s : string) : string :=
  match n, s with
  | O, _ => s
  | S _, EmptyString => EmptyString
  | S n', String _ s' => dropChars n' s'
  end.

(** [String.prototype.indexOf]: the first position at which [pat]
    occurs in [s]. *)
Fixpoint indexOf (s pat : string) : option nat :=
  if startsWith s pat then Some O
  else match s with
       | EmptyString => None
       | String _ s' => S <$> indexOf s' pat
       end.

(** [String.prototype.includes]. *)
Definition includes (s pat : string) : bool := bool_decide (is_Some (indexOf s pat)).

(** The replacement text of [String.prototype.replace] when the
    pattern is a string (no captures): in the replacement, [$$] stands
    for a dollar sign, [$&] for the matched text, [$`] for the text
    before the match and [$'] for the text after it; any other dollar
    sign stands for itself. [pending] tells that the previous
    character was an unconsumed dollar sign. *)
Fixpoint getSubstitution (matched before after : string)
    (pending : bool) (template : string) : string :=
  match template with
  | EmptyString => if pending then "$" else ""
  | String c t =>
      if pending then
        if Ascii.eqb c "$" then "$" +:+ getSubstitution matched before after false t
        else if Ascii.eqb c "&" then matched +:+ getSubstitution matched before after false t
        else if Ascii.eqb c "`" then before +:+ getSubstitution matched before after false t
        else if Ascii.eqb c "'" then after +:+ getSubstitution matched before after false t
        else String "$" (String c (getSubstitution matched before after false t))
      else if Ascii.eqb c "$" then getSubstitution matched before after true t
      else String c (getSubstitution matched before after false t)
  end.

(** [before.concat(s).replace(pat, rep)] without the leading [before],
    known to hold no occurrence of [pat] that starts in it. *)
Fixpoint replaceFrom (before s pat rep : string) : string :=
  if startsWith s pat then
    let after := dropChars (String.length pat) s in
    getSubstitution pat before after false rep +:+ after
  else match s with
       | EmptyString => EmptyString
       | String c s' => String c (replaceFrom (before +:+ String c "") s' pat rep)
       end.

(** [s.replace(pat, rep)] with a string pattern: only the first
    occurrence of [pat] is replaced. *)
Definition replace (s pat rep : string) : string := replaceFrom "" s pat rep.

(** [Array.prototype.join]. *)
Fixpoint join (sep : string) (rows : list string) : string :=
  match rows with
  | [] => ""
  | [row] => row
  | row :: rest => row +:+ sep +:+ join sep rest
  end.

(** [s.split(sep)] for a separator that is not empty: [cur] is the
    piece being read, reversed, and [skip] counts the characters of a
    separator just found that are still to be passed over. *)
Fixpoint splitFrom (sep : string) (skip : nat) (cur : string) (s : string) : list string :=
  match s with
  | EmptyString => [String.rev cur]
  | String c s' =>
      match skip with
      | S k => splitFrom sep k cur s'
      | O =>
          if startsWith s sep
          then String.rev cur :: splitFrom sep (Nat.pred (String.length sep)) "" s'
          else splitFrom sep O (String c cur) s'
      end
  end.

Definition split (s sep : string) : list string := splitFrom sep O "" s.

(** [Array.prototype.findIndex]: the least index whose element
    satisfies [p], or [-1]. *)
Fixpoint findIndex {A : Type} (p : A -> bool) (l : list A) : Z :=
  match l with
  | [] => -1
  | x :: l' => if p x then 0 else
                 let i := findIndex p l' in
                 if i <? 0 then -1 else i + 1
  end.

End JS.

Import JS.

(** ** Data model *)

(** A review comment, [CsvEntry] of [./model]: the fields the service
    reads or writes. *)
Module CsvEntry.
Record t : Type := mk {
  sha : string;
  filename : string;
  url : string;
  lines : string;
  title : string;
  comment : string;
  priority : Z;
  category : string;
  additional : string;
  id : string
}.

Definition with_lines (c : t) (v : string) : t :=
  mk (sha c) (filename c) (url c) v (title c) (comment c)
     (priority c) (category c) (additional c) (id c).

Definition with_filename (c : t) (v : string) : t :=
  mk (sha c) v (url c) (lines c) (title c) (comment c)
     (priority c) (category c) (additional c) (id c).
End CsvEntry.

(** An entry of the comment list view, [CommentListEntry]: what
    [deleteComment] is given. *)
Module CommentListEntry.
Record t : Type := mk { label : string; text : string }.
End CommentListEntry.

(** The part of VS Code's [TextEditor] the service looks at. *)
Module TextEditor.
Record Position : Type := mkPosition { line : Z; character : Z }.
Record Selection : Type := mkSelection { start : Position; end_ : Position }.
Record TextDocument : Type := mkDocument { fileName : string }.
Record t : Type := mk { selection : option Selection; document : TextDocument }.
End TextEditor.

(** ** Collaborators

    The functions the service imports from the other modules of the
    extension are the methods of these classes; the service is defined,
    and its general properties are proved, for any implementation of
    them. *)

(** [./utils/workspace-util]. *)
Class WorkspaceUtil : Type := {
  removeLeadingAndTrailingSlash : string -> string;
  removeTrailingSlash : string -> string;
  escapeDoubleQuotesForCsv : string -> string;
  escapeEndOfLineForCsv : string -> string;
  startLineNumberFromStringDefinition : string -> number;
  endLineNumberFromStringDefinition : string -> number
}.

(** [./utils/editor-utils]. *)
Class EditorUtils : Type := {
  getSelectionStringDefinition : TextEditor.t -> string;
  hasSelection : option TextEditor.t -> bool
}.

(** [./utils/storage-utils] and [CsvStructure] of [./model].
    [csvFileLines] is the pure part of [getCsvFileLinesAsArray]: the
    rows it makes of the content it has read. *)
Class StorageUtils : Type := {
  cleanCsvStorage : list string -> list string;
  csvFileLines : string -> list string;
  formatAsCsvLine : CsvEntry.t -> string
}.

(** What the service reads from its surroundings: [os.EOL], the three
    settings of [workspace.getConfiguration()] (an unset setting is the
    empty string: the code only tests settings for truthiness),
    [path.resolve], and [git-commit-id], which gives no SHA ([None])
    when it throws. *)
Class Host : Type := {
  EOL : string;
  customUrl : string;
  baseUrl : string;
  gitDirectory : string;
  path_resolve : string -> string -> string;
  gitCommitId : string -> option string
}.

(** ** The state the service acts on *)

(** What the service does to the outside, in the order it does it. *)
Inductive Event : Type :=
| ShowErrorMessage (message : string)
| ReadFileSync
| WriteFileSync (content : string)
| AppendFileSync (content : string).

(** The content of the review file ([None] when the file does not
    exist) and the events so far. *)
Record World : Type := mkWorld {
  reviewFileContent : option string;
  events : list Event
}.

(** How a call of an [async] method ends: it returns, or an exception
    leaves it (the promise is rejected). *)
Inductive Completion : Type :=
| Returned
| Thrown (error : string).

(** A state monad over [World]. *)
Definition M (A : Type) : Type := World -> A * World.

Definition ret {A : Type} (a : A) : M A := fun w => (a, w).

Definition bind {A B : Type} (m : M A) (k : A -> M B) : M B :=
  fun w => let (a, w') := m w in k a w'.

Declare Scope service_scope.
Delimit Scope service_scope with service.
Notation "x <- m ;; k" := (bind m (fun x => k))
  (at level 100, m at next level, right associativity) : service_scope.
Notation "m ;; k" := (bind m (fun _ => k))
  (at level 100, right associativity) : service_scope.
Local Open Scope service_scope.

Definition emit (e : Event) : M unit :=
  fun w => (tt, mkWorld (reviewFileContent w) (events w ++ [e])).

(** [window.showErrorMessage]. *)
Definition showErrorMessage (message : string) : M unit :=
  emit (ShowErrorMessage message).

(** [fs.existsSync(reviewFile)]. *)
Definition existsSync : M bool :=
  fun w => (bool_decide (is_Some (reviewFileContent w)), w).

(** [fs.readFileSync(reviewFile, 'utf8')]: [None] when the call throws
    because the file does not exist. *)
Definition readFileSync : M (option string) :=
  emit ReadFileSync ;; fun w => (reviewFileContent w, w).

(** [fs.writeFileSync(reviewFile, content)]: replaces the content, and
    creates the file when it does not exist. *)
Definition writeFileSync (content : string) : M unit :=
  fun w => (tt, mkWorld (Some content) (events w ++ [WriteFileSync content])).

(** [fs.appendFileSync(reviewFile, content)]: adds to the content, and
    creates the file when it does not exist. *)
Definition appendFileSync (content : string) : M unit :=
  fun w => (tt, mkWorld (Some (default "" (reviewFileContent w) +:+ content))
                        (events w ++ [AppendFileSync content])).

(** ** The service, [class ReviewCommentService] *)

Section ReviewCommentService.
Context `{!WorkspaceUtil, !EditorUtils, !StorageUtils, !Host}.

(** The two fields the constructor sets. *)
Context (reviewFile workspaceRoot : string).

(** Modelled from the spec: [getCsvFileLinesAsArray] of
    [./utils/storage-utils], whose source is missing, makes one
    synchronous read of the whole review file and returns its rows;
    like [fs.readFileSync] it has no rows to return ([None]) when the
    file does not exist. *)
Definition getCsvFileLinesAsArray : M (option (list string)) :=
  content <- readFileSync ;;
  ret (csvFileLines <$> content).

(** [checkFileExists]: its [return] leaves [checkFileExists] only;
    the caller goes on in both cases. *)
Definition checkFileExists : M unit :=
  present <- existsSync ;;
  if negb present then
    showErrorMessage ("Could not add to file: '" +:+ reviewFile +:+ "': File does not exist")
  else ret tt.

(** [remoteUrl(sha, filePath, start, end)]. *)
Definition remoteUrl (sha filePath : string) (start end_ : number) : string :=
  let filePathWithoutLeadingAndTrailingSlash := removeLeadingAndTrailingSlash filePath in
  if negb (truthy baseUrl) && negb (truthy customUrl) then ""
  else if truthy customUrl then
    replace
      (replace
         (replace
            (replace customUrl "{sha}" sha)
            "{file}" filePathWithoutLeadingAndTrailingSlash)
         "{start}" (if truthyNum start then numToString start else "0"))
      "{end}" (if truthyNum end_ then numToString end_ else "0")
  else
    let baseUrlWithoutTrailingSlash := removeTrailingSlash baseUrl in
    let shaPart := if truthy sha then sha +:+ "/" else "" in
    let ankerPart :=
      if truthyNum start && truthyNum end_
      then "#L" +:+ numToString start +:+ "-L" +:+ numToString end_
      else "" in
    baseUrlWithoutTrailingSlash +:+ "/" +:+ shaPart
      +:+ filePathWithoutLeadingAndTrailingSlash +:+ ankerPart.

(** [buildCsvString(comment)]: works on a copy of the comment. A
    priority is a number and a category a string here, so [|| 0] and
    [|| ''] leave them as they are. The message written to the console
    when no SHA is found is not part of the modelled state. *)
Definition buildCsvString (comment : CsvEntry.t) : string :=
  let copy_comment :=
    escapeEndOfLineForCsv (escapeDoubleQuotesForCsv (CsvEntry.comment comment)) in
  let copy_title :=
    if truthy (CsvEntry.title comment)
    then escapeDoubleQuotesForCsv (CsvEntry.title comment) else "" in
  let copy_priority := CsvEntry.priority comment in
  let copy_additional :=
    if truthy (CsvEntry.additional comment)
    then escapeDoubleQuotesForCsv (CsvEntry.additional comment) else "" in
  let copy_category := CsvEntry.category comment in
  let gitRepositoryPath := path_resolve workspaceRoot gitDirectory in
  let copy_sha := default "" (gitCommitId gitRepositoryPath) in
  let startAnker := startLineNumberFromStringDefinition (CsvEntry.lines comment) in
  let endAnker := endLineNumberFromStringDefinition (CsvEntry.lines comment) in
  let copy_url := remoteUrl copy_sha (CsvEntry.filename comment) startAnker endAnker in
  formatAsCsvLine
    (CsvEntry.mk copy_sha (CsvEntry.filename comment) copy_url (CsvEntry.lines comment)
       copy_title copy_comment copy_priority copy_category copy_additional
       (CsvEntry.id comment)).

(** [persistComments(rows, overwrite)]. *)
Definition persistComments (rows : list string) (overwrite : bool) : M unit :=
  let content := join EOL (cleanCsvStorage rows) +:+ EOL in
  if overwrite then writeFileSync content else appendFileSync content.

(** [getSelectedLines(comment, editor, ignoreIfNone)]: the comment is
    an object the method writes to, so the comment as the method
    leaves it is returned with the result. *)
Definition getSelectedLines (comment : CsvEntry.t) (editor : option TextEditor.t)
    (ignoreIfNone : bool) : M (bool * CsvEntry.t) :=
  if ignoreIfNone && negb (hasSelection editor) then ret (true, comment)
  else
    match editor with
    | Some ed =>
        match TextEditor.selection ed with
        | Some _ =>
            ret (true, CsvEntry.with_lines comment (getSelectionStringDefinition ed))
        | None =>
            showErrorMessage "Error referencing file/lines, Please select again." ;;
            ret (false, comment)
        end
    | None =>
        showErrorMessage "Error referencing file/lines, Please select again." ;;
        ret (false, comment)
    end.

(** [addComment(comment, editor)]. *)
Definition addComment (comment : CsvEntry.t) (editor : option TextEditor.t)
    : M (Completion * CsvEntry.t) :=
  checkFileExists ;;
  sel <- getSelectedLines comment editor false ;;
  let (selected, comment) := sel in
  if negb selected then ret (Returned, comment)
  else
    match editor with
    | None => ret (Thrown "TypeError", comment)
    | Some ed =>
        let comment :=
          CsvEntry.with_filename comment
            (replace (TextEditor.fileName (TextEditor.document ed)) workspaceRoot "") in
        persistComments [buildCsvString comment] false ;;
        ret (Returned, comment)
    end.

(** [updateComment(comment, editor)]. *)
Definition updateComment (comment : CsvEntry.t) (editor : option TextEditor.t)
    : M (Completion * CsvEntry.t) :=
  checkFileExists ;;
  let fallBackKey := CsvEntry.lines comment in
  sel <- getSelectedLines comment editor true ;;
  let (selected, comment) := sel in
  if negb selected then ret (Returned, comment)
  else
    read <- getCsvFileLinesAsArray ;;
    match read with
    | None => ret (Thrown "ENOENT", comment)
    | Some rows =>
        let updateRowIndex :=
          findIndex (fun row => includes row (CsvEntry.id comment)) rows in
        let updateRowIndex :=
          if updateRowIndex <? 0 then
            findIndex (fun row => includes row (CsvEntry.filename comment)
                                  && includes row fallBackKey) rows
          else updateRowIndex in
        if updateRowIndex <? 0 then
          showErrorMessage
            ("Update failed. Cannot find line definition '" +:+ CsvEntry.lines comment
             +:+ "' for '" +:+ CsvEntry.filename comment
             +:+ "' in '" +:+ reviewFile +:+ "'.") ;;
          ret (Returned, comment)
        else
          persistComments
            (<[Z.to_nat updateRowIndex := buildCsvString comment]> rows) true ;;
          ret (Returned, comment)
    end.

(** [deleteComment(entry)]. *)
Definition deleteComment (entry : CommentListEntry.t) : M Completion :=
  checkFileExists ;;
  read <- readFileSync ;;
  match read with
  | None => ret (Thrown "ENOENT")
  | Some oldFileContent =>
      let rows := split oldFileContent EOL in
      let textEscaped :=
        escapeEndOfLineForCsv (escapeDoubleQuotesForCsv (CommentListEntry.text entry)) in
      let updateRowIndex :=
        findIndex (fun row => includes row (CommentListEntry.label entry)
                              && includes row textEscaped) rows in
      if -1 <? updateRowIndex then
        persistComments (delete (Z.to_nat updateRowIndex) rows) true ;;
        ret Returned
      else
        showErrorMessage
          ("Update failed. Cannot delete comment '" +:+ CommentListEntry.label entry
           +:+ "' in '" +:+ reviewFile +:+ "'.") ;;
        ret Returned
  end.

End ReviewCommentService.

(** ** The collaborators as the specification describes them

    Used to run the service on concrete inputs. *)

Module SpecModel.

(** Modelled from the spec: [removeTrailingSlash] of
    [./utils/workspace-util], whose source is missing, strips the
    trailing slash of its argument. *)
Fixpoint removeTrailingSlash (s : string) : string :=
  match s with
  | EmptyString => EmptyString
  | String c s' =>
      match s' with
      | EmptyString => if Ascii.eqb c "/" then EmptyString else s
      | String _ _ => String c (removeTrailingSlash s')
      end
  end.

(** Modelled from the spec: [removeLeadingAndTrailingSlash] of
    [./utils/workspace-util], whose source is missing, strips the
    leading and the trailing slash of a file path. *)
Definition removeLeadingAndTrailingSlash (s : string) : string :=
  match removeTrailingSlash s with
  | EmptyString => EmptyString
  | String c s' as r => if Ascii.eqb c "/" then s' else r
  end.

(** Modelled from the spec: [escapeDoubleQuotesForCsv] of
    [./utils/workspace-util], whose source is missing, escapes every
    quote character, the way CSV does: by doubling it. *)
Fixpoint escapeDoubleQuotesForCsv (s : string) : string :=
  match s with
  | EmptyString => EmptyString
  | String c s' =>
      if Ascii.eqb c "034"
      then String c (String c (escapeDoubleQuotesForCsv s'))
      else String c (escapeDoubleQuotesForCsv s')
  end.

(** Modelled from the spec: [escapeEndOfLineForCsv] of
    [./utils/workspace-util], whose source is missing, escapes every
    embedded line break: a line feed becomes a backslash and an [n]. *)
Fixpoint escapeEndOfLineForCsv (s : string) : string :=
  match s with
  | EmptyString => EmptyString
  | String c s' =>
      if Ascii.eqb c "010"
      then String "092" (String "n" (escapeEndOfLineForCsv s'))
      else String c (escapeEndOfLineForCsv s')
  end.

(** The value of a decimal numeral, [None] for any other text. *)
Fixpoint decimalFrom (acc : Z) (s : string) : option Z :=
  match s with
  | EmptyString => Some acc
  | String c s' =>
      match Ascii.is_nat c with
      | Some d => decimalFrom (10 * acc + Z.of_nat d) s'
      | None => None
      end
  end.

Definition decimal (s : string) : number :=
  match s with
  | EmptyString => None
  | String _ _ => decimalFrom 0 s
  end.

(** Modelled from the spec: the line-range codec of
    [./utils/workspace-util], whose source is missing. A definition
    is [12] for one line and [12-20] for a range;
    [startLineNumberFromStringDefinition] decodes the first number
    and [endLineNumberFromStringDefinition] the second, which is
    undefined for a single line. *)
Definition startLineNumberFromStringDefinition (def : string) : number :=
  match split def "-" with
  | first :: _ => decimal first
  | [] => None
  end.

Definition endLineNumberFromStringDefinition (def : string) : number :=
  match split def "-" with
  | _ :: second :: _ => decimal second
  | _ => None
  end.

(** Modelled from the spec: [hasSelection] of [./utils/editor-utils],
    whose source is missing, tells whether the editor has an active
    selection, one that is not empty. *)
Definition hasSelection (editor : option TextEditor.t) : bool :=
  match editor with
  | Some ed =>
      match TextEditor.selection ed with
      | Some sel =>
          negb ((TextEditor.line (TextEditor.start sel) =? TextEditor.line (TextEditor.end_ sel))
                && (TextEditor.character (TextEditor.start sel)
                    =? TextEditor.character (TextEditor.end_ sel)))
      | None => false
      end
  | None => false
  end.

(** Modelled from the spec: [getSelectionStringDefinition] of
    [./utils/editor-utils], whose source is missing, encodes the
    lines of the selection: [12] for one line, [12-20] for a range. *)
Definition getSelectionStringDefinition (ed : TextEditor.t) : string :=
  match TextEditor.selection ed with
  | Some sel =>
      let first := TextEditor.line (TextEditor.start sel) in
      let last := TextEditor.line (TextEditor.end_ sel) in
      if first =? last then toString first
      else toString first +:+ "-" +:+ toString last
  | None => ""
  end.

(** Modelled from the spec: [cleanCsvStorage] of
    [./utils/storage-utils], whose source is missing, is the
    normalization after which no row is empty. *)
Definition cleanCsvStorage (rows : list string) : list string :=
  List.filter truthy rows.

(** Modelled from the spec: [CsvStructure.formatAsCsvLine] of
    [./model], whose source is missing, writes the fields in a fixed
    order, each between quote characters, with commas between them. *)
Definition formatAsCsvLine (c : CsvEntry.t) : string :=
  join ","
    (map (fun field => DQUOTE +:+ field +:+ DQUOTE)
       [CsvEntry.sha c; CsvEntry.filename c; CsvEntry.url c; CsvEntry.lines c;
        CsvEntry.title c; CsvEntry.comment c; toString (CsvEntry.priority c);
        CsvEntry.category c; CsvEntry.additional c; CsvEntry.id c]).

End SpecModel.

(** Modelled from the spec: the functions of [./utils/workspace-util]. *)
Definition specWorkspaceUtil : WorkspaceUtil := {|
  removeLeadingAndTrailingSlash := SpecModel.removeLeadingAndTrailingSlash;
  removeTrailingSlash := SpecModel.removeTrailingSlash;
  escapeDoubleQuotesForCsv := SpecModel.escapeDoubleQuotesForCsv;
  escapeEndOfLineForCsv := SpecModel.escapeEndOfLineForCsv;
  startLineNumberFromStringDefinition := SpecModel.startLineNumberFromStringDefinition;
  endLineNumberFromStringDefinition := SpecModel.endLineNumberFromStringDefinition
|}.

(** Modelled from the spec: the functions of [./utils/editor-utils]. *)
Definition specEditorUtils : EditorUtils := {|
  getSelectionStringDefinition := SpecModel.getSelectionStringDefinition;
  hasSelection := SpecModel.hasSelection
|}.

(** Modelled from the spec: the functions of [./utils/storage-utils]
    and of [./model]; a row of the file is a raw text line. *)
Definition specStorageUtils (eol : string) : StorageUtils := {|
  cleanCsvStorage := SpecModel.cleanCsvStorage;
  csvFileLines := fun content => split content eol;
  formatAsCsvLine := SpecModel.formatAsCsvLine
|}.

(** A host for the examples: line feed as line terminator, the two URL
    settings as given, and a repository whose current commit is [sha]
    (no repository when [sha] is [None]). *)
Definition exampleHost (custom base : string) (sha : option string) : Host := {|
  EOL := LF;
  customUrl := custom;
  baseUrl := base;
  gitDirectory := ".";
  path_resolve := fun root dir => root +:+ "/" +:+ dir;
  gitCommitId := fun _ => sha
|}.

(** ** Notions used to state the properties *)

(** [i] is the least index of [l] whose element satisfies [p]. *)
Definition firstMatch {A : Type} (p : A -> bool) (l : list A) (i : nat) : Prop :=
  (exists x, l !! i = Some x /\ p x = true)
  /\ forall j y, (j < i)%nat -> l !! j = Some y -> p y = false.

(** The character [ch] does not occur in [s]. *)
Fixpoint lacks (ch : ascii) (s : string) : bool :=
  match s with
  | EmptyString => true
  | String c s' => negb (Ascii.eqb c ch) && lacks ch s'
  end.

(** The four placeholders of a custom URL template, the text of each,
    and the text [remoteUrl] puts in its place. *)
Inductive Placeholder : Type := ShaP | FileP | StartP | EndP.

Definition token (k : Placeholder) : string :=
  match k with
  | ShaP => "{sha}"
  | FileP => "{file}"
  | StartP => "{start}"
  | EndP => "{end}"
  end.

Definition substituted `{!WorkspaceUtil} (k : Placeholder)
    (sha filePath : string) (start end_ : number) : string :=
  match k with
  | ShaP => sha
  | FileP => removeLeadingAndTrailingSlash filePath
  | StartP => if truthyNum start then numToString start else "0"
  | EndP => if truthyNum end_ then numToString end_ else "0"
  end.

(** A text that can stand for a placeholder without being read as
    one: it holds no opening brace and no dollar sign. *)
Definition plain (s : string) : bool := lacks "{" s && lacks "$" s.

(** The contents written or appended to the review file, among the
    events. *)
Definition written (e : Event) : option string :=
  match e with
  | WriteFileSync content | AppendFileSync content => Some content
  | _ => None
  end.

Definition writes (es : list Event) : list string := omap written es.

(** ** Example inputs *)

Module Examples.

(** A workspace in [/ws] with the review file [/ws/code-review.csv], a
    base URL, no custom URL, and a repository at commit [abc123]. *)
Definition host : Host := exampleHost "" "https://git.example/repo" (Some "abc123").

Definition addComment :=
  @addComment specWorkspaceUtil specEditorUtils (specStorageUtils LF) host
    "/ws/code-review.csv" "/ws".

Definition updateComment :=
  @updateComment specWorkspaceUtil specEditorUtils (specStorageUtils LF) host
    "/ws/code-review.csv" "/ws".

Definition deleteComment :=
  @deleteComment specWorkspaceUtil (specStorageUtils LF) host "/ws/code-review.csv".

Definition buildCsvString :=
  @buildCsvString specWorkspaceUtil (specStorageUtils LF) host "/ws".

(** A comment on lines 5 to 10 of [/src/x.ts]. *)
Definition comment : CsvEntry.t :=
  CsvEntry.mk "" "/src/x.ts" "" "5-10" "Naming" "Rename this" 1 "" "" "id-1".

(** The same comment with a line feed in its title and one in its text. *)
Definition twoLineTitle : CsvEntry.t :=
  CsvEntry.mk "" "/src/x.ts" "" "5-10" ("Naming" +:+ LF +:+ "again")
    ("Rename" +:+ LF +:+ "this") 1 "" "" "id-1".

(** An editor on [/ws/src/x.ts] with lines 7 to 9 selected, and the
    same editor with an empty selection. *)
Definition selecting : TextEditor.t :=
  TextEditor.mk
    (Some (TextEditor.mkSelection (TextEditor.mkPosition 7 0) (TextEditor.mkPosition 9 4)))
    (TextEditor.mkDocument "/ws/src/x.ts").

Definition notSelecting : TextEditor.t :=
  TextEditor.mk
    (Some (TextEditor.mkSelection (TextEditor.mkPosition 7 0) (TextEditor.mkPosition 7 0)))
    (TextEditor.mkDocument "/ws/src/x.ts").

(** A review file of three rows; the second and the third both hold the
    label and the text of [listed]. *)
Definition content : string :=
  "id-0,/src/a.ts,1-2,Typo,Fix it" +:+ LF
  +:+ "id-1,/src/x.ts,5-10,Naming,Rename this" +:+ LF
  +:+ "id-2,/src/y.ts,3,Naming,Rename this" +:+ LF.

Definition stored : World := mkWorld (Some content) [].

Definition missing : World := mkWorld None [].

Definition listed : CommentListEntry.t := CommentListEntry.mk "Naming" "Rename this".

Definition unlisted : CommentListEntry.t := CommentListEntry.mk "Style" "Reformat".

End Examples.

(** ** Notions used to state further properties *)

(** The content of a file whose lines are [rows], each followed by the
    line terminator [sep]. *)
Fixpoint terminated (sep : string) (rows : list string) : string :=
  match rows with
  | [] => ""
  | row :: rest => row +:+ sep +:+ terminated sep rest
  end.

(** A custom URL template read as a sequence of literal texts and
    placeholders, and the text it stands for. *)
Inductive Part : Type :=
| Literal (text : string)
| Slot (k : Placeholder).

Fixpoint render (template : list Part) : string :=
  match template with
  | [] => ""
  | Literal text :: rest => text +:+ render rest
  | Slot k :: rest => token k +:+ render rest
  end.

Definition samePlaceholder (k k' : Placeholder) : bool :=
  match k, k' with
  | ShaP, ShaP | FileP, FileP | StartP, StartP | EndP, EndP => true
  | _, _ => false
  end.

(** The template with the first occurrence of the placeholder [k]
    turned into the text [value]. *)
Fixpoint fillFirst (k : Placeholder) (value : string) (template : list Part) : list Part :=
  match template with
  | [] => []
  | Literal text :: rest => Literal text :: fillFirst k value rest
  | Slot k' :: rest =>
      if samePlaceholder k k' then Literal value :: rest
      else Slot k' :: fillFirst k value rest
  end.

(** The template with every placeholder turned into the text that
    [values] gives for it. *)
Definition fillAll (values : Placeholder -> string) (template : list Part) : list Part :=
  map (fun part => match part with
                   | Literal text => Literal text
                   | Slot k => Literal (values k)
                   end) template.



(** The placeholders of a template, in order, and the condition that
    no literal text of it holds an opening brace. *)
Definition placeholders (template : list Part) : list Placeholder :=
  omap (fun part => match part with
                    | Literal _ => None
                    | Slot k => Some k
                    end) template.

Definition literalsLack (ch : ascii) (template : list Part) : Prop :=
  Forall (fun part => match part with
                      | Literal text => lacks ch text = true
                      | Slot _ => True
                      end) template.

(** ** Facts about the JavaScript primitives *)

Lemma findIndex_range {A : Type} (p : A -> bool) (l : list A) :
  findIndex p l = -1 \/ 0 <= findIndex p l < Z.of_nat (length l).
Proof.
  induction l as [|x l IH]; simpl; [by left|].
  destruct (p x); [right; lia|].
  destruct (Z.ltb_spec (findIndex p l) 0); [by left|right; lia].
Qed.

Lemma findIndex_none {A : Type} (p : A -> bool) (l : list A) :
  findIndex p l = -1 <-> forall x, x ∈ l -> p x = false.
Proof.
  induction l as [|x l IH]; simpl.
  - split; [intros _ y Hy; inversion Hy|done].
  - destruct (p x) eqn:Hpx.
    + split; [lia|]. intros H. specialize (H x (list_elem_of_here _ _)). congruence.
    + destruct (Z.ltb_spec (findIndex p l) 0) as [Hlt|Hge].
      * split; [|done]. intros _ y Hy.
        apply elem_of_cons in Hy as [->|Hy]; [done|].
        apply IH; [|done]. destruct (findIndex_range p l); lia.
      * split; [lia|]. intros H.
        assert (findIndex p l = -1); [|lia].
        apply IH. intros y Hy. apply H. by apply list_elem_of_further.
Qed.

Lemma findIndex_first {A : Type} (p : A -> bool) (l : list A) (i : nat) :
  firstMatch p l i <-> findIndex p l = Z.of_nat i.
Proof.
  revert i. induction l as [|x l IH]; intros i; simpl.
  - split; [intros [[y [Hy _]] _]; by destruct i|lia].
  - destruct (p x) eqn:Hpx.
    + split.
      * intros [_ Hmin]. destruct i as [|i]; [done|].
        specialize (Hmin O x). simpl in Hmin. rewrite Hmin in Hpx; [done|lia|done].
      * intros Hi. assert (i = O) as -> by lia. split; [by exists x|].
        intros j y Hj. lia.
    + destruct (Z.ltb_spec (findIndex p l) 0) as [Hlt|Hge].
      * split; [|lia]. intros [[y [Hy Hpy]] _].
        destruct i as [|i]; simpl in Hy; [congruence|].
        assert (findIndex p l = -1) as Hnone by (destruct (findIndex_range p l); lia).
        rewrite findIndex_none in Hnone.
        rewrite Hnone in Hpy; [done|]. by eapply list_elem_of_lookup_2.
      * split.
        -- intros [[y [Hy Hpy]] Hmin].
           destruct i as [|i]; simpl in Hy; [congruence|].
           assert (findIndex p l = Z.of_nat i); [|lia].
           apply IH. split; [by exists y|].
           intros j z Hj Hz. apply (Hmin (S j) z); [lia|done].
        -- intros Hi. destruct i as [|i]; [lia|].
           assert (firstMatch p l i) as [[y [Hy Hpy]] Hmin] by (apply IH; lia).
           split; [by exists y|].
           intros [|j] z Hj Hz; simpl in Hz; [congruence|].
           apply (Hmin j z); [lia|done].
Qed.

(** String concatenation unfolds on a text that starts with a character. *)
#[local] Arguments String.append !_ _ /.

Lemma append_assoc (a b c : string) : (a +:+ b) +:+ c = a +:+ b +:+ c.
Proof. induction a as [|x a IH]; simpl; [done|by rewrite IH]. Qed.

Lemma append_empty_r (a : string) : a +:+ "" = a.
Proof. induction a as [|x a IH]; simpl; [done|by rewrite IH]. Qed.

Lemma truthy_append (a : string) (c : ascii) (b : string) :
  truthy (a +:+ String c b) = true.
Proof. by destruct a. Qed.

Lemma lacks_append (ch : ascii) (a b : string) :
  lacks ch (a +:+ b) = lacks ch a && lacks ch b.
Proof. induction a as [|x a IH]; simpl; [done|]. by rewrite IH, andb_assoc. Qed.

Lemma startsWith_lacks (ch : ascii) (p s : string) :
  lacks ch s = true -> startsWith s (String ch p) = false.
Proof.
  destruct s as [|c s]; [done|]. simpl. intros H.
  apply andb_prop in H as [Hc _].
  by destruct (Ascii.eqb c ch).
Qed.

Lemma replaceFrom_unfold (before s pat rep : string) :
  replaceFrom before s pat rep =
    if startsWith s pat then
      getSubstitution pat before (dropChars (String.length pat) s) false rep
        +:+ dropChars (String.length pat) s
    else match s with
         | EmptyString => EmptyString
         | String c s' => String c (replaceFrom (before +:+ String c "") s' pat rep)
         end.
Proof. by destruct s. Qed.

Lemma startsWith_spec (s pat : string) :
  startsWith s pat = true <-> exists post, s = pat +:+ post.
Proof.
  revert s. induction pat as [|a pat IH]; intros s; simpl.
  - split; [by exists s|done].
  - destruct s as [|c s].
    + split; [done|]. by intros [post Hpost].
    + rewrite andb_true_iff, Ascii.eqb_eq, IH. split.
      * intros [-> [post ->]]. by exists post.
      * intros [post [= -> ->]]. split; [done|by exists post].
Qed.

(** [includes] is containment: the pattern occurs somewhere in the
    text. *)
Lemma includes_spec (s pat : string) :
  includes s pat = true <-> exists pre post, s = pre +:+ pat +:+ post.
Proof.
  unfold includes. rewrite bool_decide_eq_true. split.
  - induction s as [|c s IH]; simpl.
    + destruct (startsWith "" pat) eqn:Hstart; [|by intros [? ?]].
      intros _. apply startsWith_spec in Hstart as [post Hpost]. by exists "", post.
    + destruct (startsWith (String c s) pat) eqn:Hstart.
      * intros _. apply startsWith_spec in Hstart as [post Hpost]. by exists "", post.
      * intros Hsome. apply fmap_is_Some in Hsome.
        destruct (IH Hsome) as (pre & post & ->). by exists (String c pre), post.
  - intros (pre & post & ->). induction pre as [|c pre IH]; simpl.
    + assert (startsWith (pat +:+ post) pat = true) as Hstart
        by (apply startsWith_spec; by exists post).
      destruct (pat +:+ post); simpl in *; rewrite Hstart; eauto.
    + destruct (startsWith _ pat); [eauto|]. by apply fmap_is_Some.
Qed.

Example replace_first_only :
  replace "{sha}/{sha}" "{sha}" "abc" = "abc/{sha}".
Proof. reflexivity. Qed.

Example replace_dollar_patterns :
  replace "x-{file}-y" "{file}" "a$$b$&c$`d$'e$1" = "x-a$b{file}cx-d-ye$1-y".
Proof. reflexivity. Qed.

Example split_lines :
  split ("a" +:+ LF +:+ "b" +:+ LF) LF = ["a"; "b"; ""]
  /\ split "" LF = [""]
  /\ split ("a" +:+ CR +:+ LF +:+ CR +:+ "b") (CR +:+ LF) = ["a"; CR +:+ "b"].
Proof. repeat split. Qed.

Example join_lines :
  join LF ["a"; "b"] +:+ LF = "a" +:+ LF +:+ "b" +:+ LF /\ join LF [] = "".
Proof. repeat split. Qed.

(** A stretch of text without the first character of the pattern is
    passed over. *)
Lemma replaceFrom_skip (ch : ascii) (p rep x rest before : string) :
  lacks ch x = true ->
  replaceFrom before (x +:+ rest) (String ch p) rep
  = x +:+ replaceFrom (before +:+ x) rest (String ch p) rep.
Proof.
  revert before. induction x as [|c x IH]; intros before H.
  - simpl. by rewrite append_empty_r.
  - simpl in H. apply andb_prop in H as [Hc Hx].
    change (String c x +:+ rest) with (String c (x +:+ rest)).
    rewrite replaceFrom_unfold.
    assert (startsWith (String c (x +:+ rest)) (String ch p) = false) as ->.
    { simpl. by destruct (Ascii.eqb c ch). }
    rewrite IH by done. simpl. by rewrite append_assoc.
Qed.

(** Without the first character of the pattern there is nothing to
    replace. *)
Lemma replaceFrom_lacks (ch : ascii) (p rep s before : string) :
  lacks ch s = true -> replaceFrom before s (String ch p) rep = s.
Proof.
  intros H. rewrite <- (append_empty_r s) at 1.
  rewrite replaceFrom_skip by done. simpl. by rewrite append_empty_r.
Qed.

(** A replacement text without dollar sign is inserted as it is. *)
Lemma getSubstitution_plain (matched before after rep : string) :
  lacks "$" rep = true -> getSubstitution matched before after false rep = rep.
Proof.
  induction rep as [|c rep IH]; simpl; [done|]. intros H.
  apply andb_prop in H as [Hc Hrep].
  destruct (Ascii.eqb c "$"); [done|]. by rewrite IH.
Qed.

(** A number is written without brace and without dollar sign. *)
Lemma lacks_toString (ch : ascii) (z : Z) :
  ch = "{"%char \/ ch = "$"%char -> lacks ch (toString z) = true.
Proof.
  intros Hch.
  assert (forall d, lacks ch (NilEmpty.string_of_uint d) = true) as Hu.
  { intros d. destruct Hch as [-> | ->]; induction d; simpl; auto. }
  assert (forall d, lacks ch (NilZero.string_of_uint d) = true) as Hz.
  { intros d. destruct d; try apply Hu. by destruct Hch as [-> | ->]. }
  unfold toString. destruct (Z.to_int z) as [d|d]; simpl; [apply Hz|].
  rewrite Hz. by destruct Hch as [-> | ->].
Qed.

(** ** The remote URL builder *)

(** C7: with neither the custom template nor the base URL configured
    the remote URL is the empty string; with a custom template
    configured the result is the template with its placeholders
    replaced, and it is the same whatever the base URL setting is. *)
Theorem remoteUrl_precedence `{!WorkspaceUtil} (host : Host)
    (sha filePath : string) (start end_ : number) :
  (truthy baseUrl = false -> truthy customUrl = false ->
   remoteUrl sha filePath start end_ = "")
  /\ (truthy customUrl = true ->
      remoteUrl sha filePath start end_
      = replace
          (replace
             (replace
                (replace customUrl "{sha}" sha)
                "{file}" (removeLeadingAndTrailingSlash filePath))
             "{start}" (if truthyNum start then numToString start else "0"))
          "{end}" (if truthyNum end_ then numToString end_ else "0")
      /\ forall host' : Host,
          @customUrl host' = @customUrl host ->
          @remoteUrl _ host' sha filePath start end_
          = @remoteUrl _ host sha filePath start end_).
Proof.
  split.
  - intros Hb Hc. unfold remoteUrl. by rewrite Hb, Hc.
  - intros Hc. split.
    + unfold remoteUrl. by rewrite Hc, andb_false_r.
    + intros host' Heq. unfold remoteUrl. by rewrite Heq, Hc, !andb_false_r.
Qed.

(** A template with the custom URL and a base URL both configured. *)
Lemma remoteUrl_precedence_witness :
  @remoteUrl specWorkspaceUtil
    (exampleHost "{file}@{sha}:{start}" "https://git.example/repo" None)
    "deadbeef" "a.ts" (Some 3) None
  = "a.ts@deadbeef:3"
  /\ @remoteUrl specWorkspaceUtil (exampleHost "" "" None)
       "deadbeef" "a.ts" (Some 3) None
     = "".
Proof.
  split.
  - destruct (@remoteUrl_precedence specWorkspaceUtil
                (exampleHost "{file}@{sha}:{start}" "https://git.example/repo" None)
                "deadbeef" "a.ts" (Some 3) None) as [_ Hcustom].
    destruct (Hcustom eq_refl) as [-> _]. reflexivity.
  - destruct (@remoteUrl_precedence specWorkspaceUtil (exampleHost "" "" None)
                "deadbeef" "a.ts" (Some 3) None) as [Hnone _].
    exact (Hnone eq_refl eq_refl).
Defined.

(** C6: with no custom template and a base URL configured, the remote
    URL is the base URL without its trailing slash, a slash, the SHA
    and a slash when the SHA is not empty, the file path without its
    leading and trailing slashes, and the anchor of the two line
    numbers when both are given (and neither is zero); the example of
    the specification yields the URL it states. *)
Theorem remoteUrl_base_url :
  (forall (util : WorkspaceUtil) (host : Host) (sha filePath : string) (start end_ : number),
     truthy customUrl = false -> truthy baseUrl = true ->
     remoteUrl sha filePath start end_
     = removeTrailingSlash baseUrl +:+ "/"
       +:+ (if truthy sha then sha +:+ "/" else "")
       +:+ removeLeadingAndTrailingSlash filePath
       +:+ match start, end_ with
           | Some s, Some e =>
               if (s =? 0) || (e =? 0) then ""
               else "#L" +:+ toString s +:+ "-L" +:+ toString e
           | _, _ => ""
           end)
  /\ @remoteUrl specWorkspaceUtil (exampleHost "" "https://git.example/repo" None)
       "abc123" "/src/x.ts" (Some 5) (Some 10)
     = "https://git.example/repo/abc123/src/x.ts#L5-L10".
Proof.
  split; [|reflexivity].
  intros util host sha filePath start end_ Hc Hb.
  unfold remoteUrl. rewrite Hc, Hb. cbn [negb andb].
  do 4 f_equal.
  destruct start as [s|], end_ as [e|]; cbn [truthyNum numToString andb]; try done.
  - by destruct (s =? 0), (e =? 0).
  - by destruct (s =? 0).
Qed.

(** The example of the specification without SHA. *)
Lemma remoteUrl_base_url_witness :
  @remoteUrl specWorkspaceUtil (exampleHost "" "https://git.example/repo/" None)
    "" "/src/x.ts" (Some 5) (Some 10)
  = "https://git.example/repo/src/x.ts#L5-L10".
Proof.
  destruct remoteUrl_base_url as [Hbase _].
  rewrite (Hbase specWorkspaceUtil (exampleHost "" "https://git.example/repo/" None)
             "" "/src/x.ts" (Some 5) (Some 10) eq_refl eq_refl).
  reflexivity.
Defined.

(** What [remoteUrl] substitutes for a line number is plain. *)
Lemma plain_line_number (n : number) :
  plain (if truthyNum n then numToString n else "0") = true.
Proof.
  unfold plain. destruct n as [z|]; [|done]. simpl.
  destruct (negb (z =? 0)); [|done].
  by rewrite !lacks_toString by auto.
Qed.

(** ** The store operations *)

Section StoreOperations.
Context `{!WorkspaceUtil, !EditorUtils, !StorageUtils, !Host}.
Context (reviewFile workspaceRoot : string).

Lemma checkFileExists_present (w : World) (content : string) :
  reviewFileContent w = Some content -> checkFileExists reviewFile w = (tt, w).
Proof.
  intros Hw. unfold checkFileExists, bind, existsSync. rewrite Hw.
  rewrite bool_decide_eq_true_2 by eauto. done.
Qed.

Lemma checkFileExists_absent (w : World) :
  reviewFileContent w = None ->
  checkFileExists reviewFile w
  = (tt, mkWorld None
           (events w ++ [ShowErrorMessage
              ("Could not add to file: '" +:+ reviewFile +:+ "': File does not exist")])).
Proof.
  intros Hw. unfold checkFileExists, bind, existsSync. rewrite Hw.
  rewrite bool_decide_eq_false_2 by (intros [? ?]; done).
  unfold showErrorMessage, emit. simpl. by rewrite Hw.
Qed.

(** [getSelectedLines] writes to the [lines] field only, and when it
    returns [true] it has done nothing else. *)
Lemma getSelectedLines_true (comment c' : CsvEntry.t) (editor : option TextEditor.t)
    (ignoreIfNone : bool) (w w' : World) :
  getSelectedLines comment editor ignoreIfNone w = ((true, c'), w') ->
  w' = w /\ CsvEntry.id c' = CsvEntry.id comment
  /\ CsvEntry.filename c' = CsvEntry.filename comment.
Proof.
  unfold getSelectedLines.
  destruct (ignoreIfNone && negb (hasSelection editor)).
  - intros [= <- <-]. done.
  - destruct editor as [ed|]; [destruct (TextEditor.selection ed)|];
      unfold bind, ret, showErrorMessage, emit; simpl; intros [= <- <-]; done.
Qed.

Lemma getSelectedLines_ignored (comment : CsvEntry.t) (editor : option TextEditor.t)
    (w : World) :
  hasSelection editor = false ->
  getSelectedLines comment editor true w = ((true, comment), w).
Proof. intros Hsel. unfold getSelectedLines. by rewrite Hsel. Qed.

(** [updateComment] once the file is known to exist and the selected
    lines have been refreshed. *)
Lemma updateComment_run (comment c' : CsvEntry.t) (editor : option TextEditor.t)
    (w : World) (content : string) :
  reviewFileContent w = Some content ->
  getSelectedLines comment editor true w = ((true, c'), w) ->
  updateComment reviewFile workspaceRoot comment editor w
  = let rows := csvFileLines content in
    let byId := findIndex (fun row => includes row (CsvEntry.id comment)) rows in
    let found :=
      if byId <? 0 then
        findIndex (fun row => includes row (CsvEntry.filename comment)
                              && includes row (CsvEntry.lines comment)) rows
      else byId in
    if found <? 0 then
      ((Returned, c'),
       mkWorld (Some content)
         (events w ++ [ReadFileSync;
            ShowErrorMessage
              ("Update failed. Cannot find line definition '" +:+ CsvEntry.lines c'
               +:+ "' for '" +:+ CsvEntry.filename c'
               +:+ "' in '" +:+ reviewFile +:+ "'.")]))
    else
      let updated :=
        join EOL (cleanCsvStorage
                    (<[Z.to_nat found := buildCsvString workspaceRoot c']> rows))
        +:+ EOL in
      ((Returned, c'),
       mkWorld (Some updated) (events w ++ [ReadFileSync; WriteFileSync updated])).
Proof.
  intros Hw Hsel.
  destruct (getSelectedLines_true _ _ _ _ _ _ Hsel) as (_ & Hid & Hfile).
  unfold updateComment. unfold bind at 1.
  rewrite (checkFileExists_present w content Hw).
  unfold bind at 1. rewrite Hsel. cbn [negb].
  unfold bind at 1. unfold getCsvFileLinesAsArray, readFileSync, bind, emit, ret.
  cbn [reviewFileContent events fst snd]. rewrite Hw. cbn [fmap option_fmap option_map].
  rewrite Hid, Hfile. cbv zeta.
  set (byId := findIndex _ _).
  set (found := if byId <? 0 then _ else byId).
  destruct (found <? 0);
    unfold bind, showErrorMessage, emit, persistComments, writeFileSync, ret;
    cbn [reviewFileContent events fst snd]; by rewrite <- app_assoc.
Qed.

(** [deleteComment] once the file is known to exist. *)
Lemma deleteComment_run (entry : CommentListEntry.t) (w : World) (content : string) :
  reviewFileContent w = Some content ->
  deleteComment reviewFile entry w
  = let rows := split content EOL in
    let found :=
      findIndex
        (fun row => includes row (CommentListEntry.label entry)
                    && includes row (escapeEndOfLineForCsv
                                       (escapeDoubleQuotesForCsv
                                          (CommentListEntry.text entry)))) rows in
    if -1 <? found then
      let kept := join EOL (cleanCsvStorage (delete (Z.to_nat found) rows)) +:+ EOL in
      (Returned, mkWorld (Some kept) (events w ++ [ReadFileSync; WriteFileSync kept]))
    else
      (Returned,
       mkWorld (Some content)
         (events w ++ [ReadFileSync;
            ShowErrorMessage
              ("Update failed. Cannot delete comment '" +:+ CommentListEntry.label entry
               +:+ "' in '" +:+ reviewFile +:+ "'.")])).
Proof.
  intros Hw. unfold deleteComment. unfold bind at 1.
  rewrite (checkFileExists_present w content Hw).
  unfold bind at 1. unfold readFileSync, bind, emit.
  cbn [reviewFileContent events fst snd]. rewrite Hw. cbv zeta.
  destruct (-1 <? _);
    unfold bind, showErrorMessage, emit, persistComments, writeFileSync, ret;
    cbn [reviewFileContent events fst snd]; by rewrite <- app_assoc.
Qed.

(** [addComment] when the editor has a selection, whether or not the
    file exists. *)
Lemma addComment_run (comment : CsvEntry.t) (ed : TextEditor.t)
    (sel : TextEditor.Selection) (w : World) :
  TextEditor.selection ed = Some sel ->
  addComment reviewFile workspaceRoot comment (Some ed) w
  = let w1 := snd (checkFileExists reviewFile w) in
    let added :=
      CsvEntry.with_filename
        (CsvEntry.with_lines comment (getSelectionStringDefinition ed))
        (replace (TextEditor.fileName (TextEditor.document ed)) workspaceRoot "") in
    let content :=
      join EOL (cleanCsvStorage [buildCsvString workspaceRoot added]) +:+ EOL in
    ((Returned, added),
     mkWorld (Some (default "" (reviewFileContent w1) +:+ content))
       (events w1 ++ [AppendFileSync content])).
Proof.
  intros Hsel. unfold addComment. unfold bind at 1.
  destruct (checkFileExists reviewFile w) as [[] w1].
  unfold getSelectedLines. cbn [andb]. rewrite Hsel.
  unfold bind, ret, persistComments, appendFileSync. done.
Qed.

(** The row [updateComment] rewrites: the first that contains the
    identifier, or else the first that contains the file name and the
    former lines. *)
Lemma updateComment_rewrites (comment c' : CsvEntry.t)
    (editor : option TextEditor.t) (w : World) (content : string) (i : nat) :
  reviewFileContent w = Some content ->
  getSelectedLines comment editor true w = ((true, c'), w) ->
  let rows := csvFileLines content in
  let byId := fun row => includes row (CsvEntry.id comment) in
  let byFallback :=
    fun row => includes row (CsvEntry.filename comment)
               && includes row (CsvEntry.lines comment) in
  firstMatch byId rows i
  \/ ((forall row, row ∈ rows -> byId row = false) /\ firstMatch byFallback rows i) ->
  let rewritten :=
    join EOL (cleanCsvStorage (<[i := buildCsvString workspaceRoot c']> rows)) +:+ EOL in
  updateComment reviewFile workspaceRoot comment editor w
  = ((Returned, c'),
     mkWorld (Some rewritten) (events w ++ [ReadFileSync; WriteFileSync rewritten])).
Proof.
  intros Hw Hsel rows byId byFallback Hfound rewritten.
  rewrite (updateComment_run comment c' editor w content Hw Hsel). cbv zeta.
  fold rows. fold byId. fold byFallback.
  assert (forall n : nat, (Z.of_nat n <? 0) = false) as Hnat
    by (intros n; apply Z.ltb_ge; lia).
  destruct Hfound as [Hi | [Hnone Hi]].
  - apply findIndex_first in Hi. rewrite Hi, !Hnat, Nat2Z.id. done.
  - apply findIndex_none in Hnone. rewrite Hnone.
    apply findIndex_first in Hi. cbn [Z.ltb Z.compare]. rewrite Hi, Hnat, Nat2Z.id. done.
Qed.

(** C3: once the selected lines are refreshed, [updateComment] replaces
    the first row that contains the identifier of the comment; when no
    row contains it, the first row that contains both the file name and
    the lines the comment had before the refresh; and when no row
    matches either way it reports an error and leaves the file as it
    is, nothing being written. *)
Theorem updateComment_locates_row (comment c' : CsvEntry.t)
    (editor : option TextEditor.t) (w : World) (content : string) :
  reviewFileContent w = Some content ->
  getSelectedLines comment editor true w = ((true, c'), w) ->
  let rows := csvFileLines content in
  let byId := fun row => includes row (CsvEntry.id comment) in
  let byFallback :=
    fun row => includes row (CsvEntry.filename comment)
               && includes row (CsvEntry.lines comment) in
  let rewritten := fun i : nat =>
    join EOL (cleanCsvStorage (<[i := buildCsvString workspaceRoot c']> rows)) +:+ EOL in
  let updated := fun i : nat =>
    ((Returned, c'),
     mkWorld (Some (rewritten i)) (events w ++ [ReadFileSync; WriteFileSync (rewritten i)])) in
  (forall i, firstMatch byId rows i ->
     updateComment reviewFile workspaceRoot comment editor w = updated i)
  /\ ((forall row, row ∈ rows -> byId row = false) ->
      forall i, firstMatch byFallback rows i ->
        updateComment reviewFile workspaceRoot comment editor w = updated i)
  /\ ((forall row, row ∈ rows -> byId row = false) ->
      (forall row, row ∈ rows -> byFallback row = false) ->
      updateComment reviewFile workspaceRoot comment editor w
      = ((Returned, c'),
         mkWorld (Some content)
           (events w ++ [ReadFileSync;
              ShowErrorMessage
                ("Update failed. Cannot find line definition '" +:+ CsvEntry.lines c'
                 +:+ "' for '" +:+ CsvEntry.filename c'
                 +:+ "' in '" +:+ reviewFile +:+ "'.")]))).
Proof.
  intros Hw Hsel rows byId byFallback rewritten updated.
  repeat split.
  - intros i Hi. apply (updateComment_rewrites comment c' editor w content i Hw Hsel).
    by left.
  - intros Hnone i Hi.
    apply (updateComment_rewrites comment c' editor w content i Hw Hsel).
    by right.
  - intros Hnone Hfall.
    rewrite (updateComment_run comment c' editor w content Hw Hsel). cbv zeta.
    fold rows. fold byId. fold byFallback.
    apply findIndex_none in Hnone, Hfall.
    rewrite Hnone. cbn [Z.ltb Z.compare]. rewrite Hfall. done.
Qed.

(** C8: when the editor has no active selection, [updateComment], which
    always asks for an empty selection to be ignored, leaves the comment
    as it was, its [lines] field included, and goes on to look the row
    up: the row it finds is rewritten from the unchanged comment. *)
Theorem updateComment_keeps_lines_without_selection (comment : CsvEntry.t)
    (editor : option TextEditor.t) (w : World) :
  hasSelection editor = false ->
  getSelectedLines comment editor true w = ((true, comment), w)
  /\ (updateComment reviewFile workspaceRoot comment editor w).1.2 = comment
  /\ CsvEntry.lines (updateComment reviewFile workspaceRoot comment editor w).1.2
     = CsvEntry.lines comment
  /\ forall content i,
       reviewFileContent w = Some content ->
       firstMatch (fun row => includes row (CsvEntry.id comment)) (csvFileLines content) i ->
       let rewritten :=
         join EOL
           (cleanCsvStorage
              (<[i := buildCsvString workspaceRoot comment]> (csvFileLines content)))
         +:+ EOL in
       updateComment reviewFile workspaceRoot comment editor w
       = ((Returned, comment),
          mkWorld (Some rewritten) (events w ++ [ReadFileSync; WriteFileSync rewritten])).
Proof.
  intros Hsel.
  assert ((updateComment reviewFile workspaceRoot comment editor w).1.2 = comment) as Hsame.
  { unfold updateComment. unfold bind at 1.
    destruct (checkFileExists reviewFile w) as [[] w1].
    unfold bind at 1. rewrite (getSelectedLines_ignored comment editor w1 Hsel).
    cbn [negb]. unfold getCsvFileLinesAsArray, readFileSync, bind, emit, ret.
    cbn [reviewFileContent events fst snd].
    destruct (reviewFileContent w1); cbn [fmap option_fmap option_map]; [|done].
    cbv zeta. by destruct (_ <? 0). }
  split; [by apply getSelectedLines_ignored|].
  split; [done|]. split; [by rewrite Hsame|].
  intros content i Hw Hi.
  apply (updateComment_rewrites comment comment editor w content i Hw
           (getSelectedLines_ignored comment editor w Hsel)).
  by left.
Qed.

(** The row [deleteComment] removes: the first that contains the label
    and the escaped text. *)
Lemma deleteComment_removes (entry : CommentListEntry.t) (w : World)
    (content : string) (i : nat) :
  reviewFileContent w = Some content ->
  firstMatch
    (fun row => includes row (CommentListEntry.label entry)
                && includes row (escapeEndOfLineForCsv
                                   (escapeDoubleQuotesForCsv (CommentListEntry.text entry))))
    (split content EOL) i ->
  let kept := join EOL (cleanCsvStorage (delete i (split content EOL))) +:+ EOL in
  deleteComment reviewFile entry w
  = (Returned, mkWorld (Some kept) (events w ++ [ReadFileSync; WriteFileSync kept])).
Proof.
  intros Hw Hi kept. rewrite (deleteComment_run entry w content Hw). cbv zeta.
  apply findIndex_first in Hi. rewrite Hi, Nat2Z.id.
  by rewrite (proj2 (Z.ltb_lt (-1) (Z.of_nat i))) by lia.
Qed.

(** C5: [deleteComment] looks for a row that contains both the label
    of the entry and its escaped text. When no row does, it reports an
    error and the file is left as it is. When one does, the file is
    rewritten from the rows without the first such row: one row fewer,
    the others as they were and in the same order, both among the lines
    read and among the rows that the normalization keeps. *)
Theorem deleteComment_removes_one_row (entry : CommentListEntry.t) (w : World)
    (content : string) :
  reviewFileContent w = Some content ->
  let rows := split content EOL in
  let matching :=
    fun row => includes row (CommentListEntry.label entry)
               && includes row (escapeEndOfLineForCsv
                                  (escapeDoubleQuotesForCsv (CommentListEntry.text entry))) in
  ((forall row, row ∈ rows -> matching row = false) ->
   deleteComment reviewFile entry w
   = (Returned,
      mkWorld (Some content)
        (events w ++ [ReadFileSync;
           ShowErrorMessage
             ("Update failed. Cannot delete comment '" +:+ CommentListEntry.label entry
              +:+ "' in '" +:+ reviewFile +:+ "'.")])))
  /\ (forall i removed, firstMatch matching rows i -> rows !! i = Some removed ->
      let kept := delete i rows in
      let rewritten := join EOL (cleanCsvStorage kept) +:+ EOL in
      deleteComment reviewFile entry w
      = (Returned,
         mkWorld (Some rewritten) (events w ++ [ReadFileSync; WriteFileSync rewritten]))
      /\ rows = take i rows ++ removed :: drop (S i) rows
      /\ kept = take i rows ++ drop (S i) rows
      /\ (length kept + 1 = length rows)%nat
      /\ forall keep : string -> bool,
           (forall l, cleanCsvStorage l = List.filter keep l) ->
           keep removed = true ->
           cleanCsvStorage rows
           = cleanCsvStorage (take i rows) ++ removed :: cleanCsvStorage (drop (S i) rows)
           /\ cleanCsvStorage kept
              = cleanCsvStorage (take i rows) ++ cleanCsvStorage (drop (S i) rows)).
Proof.
  intros Hw rows matching. split.
  - intros Hnone. rewrite (deleteComment_run entry w content Hw). cbv zeta.
    fold rows. fold matching. apply findIndex_none in Hnone. by rewrite Hnone.
  - intros i removed Hi Hrow kept rewritten.
    split; [exact (deleteComment_removes entry w content i Hw Hi)|].
    assert (rows = take i rows ++ removed :: drop (S i) rows) as Hsplit
      by (symmetry; by apply take_drop_middle).
    assert (kept = take i rows ++ drop (S i) rows) as Hkept
      by apply delete_take_drop.
    split; [done|]. split; [done|]. split.
    + rewrite Hkept. rewrite Hsplit at 3. rewrite !length_app. simpl. lia.
    + intros keep Hclean Hkeep. split.
      * rewrite Hsplit at 1. rewrite !Hclean, List.filter_app. simpl. by rewrite Hkeep.
      * rewrite Hkept, !Hclean. apply List.filter_app.
Qed.


Lemma writes_app (es es' : list Event) : writes (es ++ es') = writes es ++ writes es'.
Proof. apply omap_app. Qed.

(** Neither the guard nor the refresh of the selected lines touches the
    file. *)
Lemma checkFileExists_effect (w : World) :
  reviewFileContent (checkFileExists reviewFile w).2 = reviewFileContent w
  /\ writes (events (checkFileExists reviewFile w).2) = writes (events w).
Proof.
  unfold checkFileExists, bind, existsSync.
  destruct (negb _); [|done].
  unfold showErrorMessage, emit. cbn [snd reviewFileContent events].
  rewrite writes_app. cbn. by rewrite app_nil_r.
Qed.



(** C1, where the code departs from the claim: [checkFileExists] reports
    that the file does not exist, but the operations go on. With a
    selection in the editor [addComment] then appends the new row, which
    creates the file; [deleteComment] then tries to read the file, and
    the exception of the read ends it. *)
Theorem missing_file_guard_does_not_abort (comment : CsvEntry.t) (ed : TextEditor.t)
    (sel : TextEditor.Selection) (entry : CommentListEntry.t) (w : World) :
  reviewFileContent w = None ->
  TextEditor.selection ed = Some sel ->
  let reported :=
    ShowErrorMessage
      ("Could not add to file: '" +:+ reviewFile +:+ "': File does not exist") in
  let added :=
    CsvEntry.with_filename
      (CsvEntry.with_lines comment (getSelectionStringDefinition ed))
      (replace (TextEditor.fileName (TextEditor.document ed)) workspaceRoot "") in
  let content :=
    join EOL (cleanCsvStorage [buildCsvString workspaceRoot added]) +:+ EOL in
  addComment reviewFile workspaceRoot comment (Some ed) w
  = ((Returned, added),
     mkWorld (Some content) (events w ++ [reported; AppendFileSync content]))
  /\ deleteComment reviewFile entry w
     = (Thrown "ENOENT", mkWorld None (events w ++ [reported; ReadFileSync])).
Proof.
  intros Hw Hsel reported added content. split.
  - rewrite (addComment_run comment ed sel w Hsel).
    rewrite (checkFileExists_absent w Hw). cbn [snd reviewFileContent events default].
    by rewrite <- app_assoc.
  - unfold deleteComment. unfold bind at 1.
    rewrite (checkFileExists_absent w Hw).
    unfold readFileSync, bind, emit, ret. cbn [reviewFileContent events fst snd].
    by rewrite <- app_assoc.
Qed.

End StoreOperations.

(** ** The CSV line of a comment *)

(** C2, where the code departs from the claim: [buildCsvString] escapes
    the line feed of the comment text, but escapes only the quotes of
    the title (and of the additional field), so a comment whose title
    holds a line feed is serialized as a row of two physical lines,
    while the same comment with a one-line title is one line. *)
Theorem buildCsvString_title_line_break_not_escaped :
  length (split (Examples.buildCsvString Examples.twoLineTitle) LF) = 2%nat
  /\ includes (Examples.buildCsvString Examples.twoLineTitle)
       ("Naming" +:+ LF +:+ "again") = true
  /\ includes (Examples.buildCsvString Examples.twoLineTitle)
       ("Rename" +:+ LF +:+ "this") = false
  /\ length (split (Examples.buildCsvString
                      (CsvEntry.mk "" "/src/x.ts" "" "5-10" "Naming"
                         ("Rename" +:+ LF +:+ "this") 1 "" "" "id-1")) LF) = 1%nat.
Proof. vm_compute. repeat split. Qed.

(** ** The properties on the example inputs *)

(** Decides [firstMatch] on a given list by evaluation. *)
Ltac first_match_by_evaluation :=
  split;
  [ eexists; split; [reflexivity | vm_compute; reflexivity]
  | let j := fresh "j" in
    let y := fresh "y" in
    let Hj := fresh "Hj" in
    let Hy := fresh "Hy" in
    intros j y Hj Hy;
    repeat (destruct j as [|j];
            [vm_compute in Hy; injection Hy as <-; vm_compute; reflexivity|]);
    lia ].

(** Without the file, [addComment] creates it and [deleteComment] ends
    on the exception of the read. *)
Lemma missing_file_guard_does_not_abort_witness :
  reviewFileContent Examples.missing = None
  /\ reviewFileContent
       (Examples.addComment Examples.comment (Some Examples.selecting) Examples.missing).2
     = Some (Examples.buildCsvString
               (CsvEntry.with_lines Examples.comment "7-9") +:+ LF)
  /\ (Examples.deleteComment Examples.listed Examples.missing).1 = Thrown "ENOENT".
Proof.
  pose proof (@missing_file_guard_does_not_abort
                specWorkspaceUtil specEditorUtils (specStorageUtils LF) Examples.host
                "/ws/code-review.csv" "/ws" Examples.comment Examples.selecting
                (TextEditor.mkSelection (TextEditor.mkPosition 7 0) (TextEditor.mkPosition 9 4))
                Examples.listed Examples.missing eq_refl eq_refl) as Hrun.
  cbv zeta in Hrun. destruct Hrun as [Hadd Hdelete].
  split; [reflexivity|]. split.
  - unfold Examples.addComment. rewrite Hadd. reflexivity.
  - unfold Examples.deleteComment. rewrite Hdelete. reflexivity.
Defined.

(** The second row of the example file holds the identifier. *)
Lemma updateComment_locates_row_witness :
  reviewFileContent Examples.stored = Some Examples.content
  /\ reviewFileContent
       (Examples.updateComment Examples.comment (Some Examples.notSelecting)
          Examples.stored).2
     = Some ("id-0,/src/a.ts,1-2,Typo,Fix it" +:+ LF
             +:+ Examples.buildCsvString Examples.comment +:+ LF
             +:+ "id-2,/src/y.ts,3,Naming,Rename this" +:+ LF).
Proof.
  split; [reflexivity|].
  pose proof (@updateComment_locates_row
                specWorkspaceUtil specEditorUtils (specStorageUtils LF) Examples.host
                "/ws/code-review.csv" "/ws" Examples.comment Examples.comment
                (Some Examples.notSelecting) Examples.stored Examples.content
                eq_refl eq_refl) as Hrun.
  cbv zeta in Hrun. destruct Hrun as [Hid _].
  unfold Examples.updateComment. rewrite (Hid 1%nat).
  - reflexivity.
  - first_match_by_evaluation.
Defined.

(** With an empty selection the comment keeps its lines. *)
Lemma updateComment_keeps_lines_without_selection_witness :
  CsvEntry.lines
    (Examples.updateComment Examples.comment (Some Examples.notSelecting)
       Examples.stored).1.2
  = "5-10".
Proof.
  pose proof (@updateComment_keeps_lines_without_selection
                specWorkspaceUtil specEditorUtils (specStorageUtils LF) Examples.host
                "/ws/code-review.csv" "/ws" Examples.comment
                (Some Examples.notSelecting) Examples.stored eq_refl)
    as (_ & _ & Hlines & _).
  exact Hlines.
Defined.

(** The entry of the example list is found in the second row. *)
Lemma deleteComment_removes_one_row_witness :
  reviewFileContent Examples.stored = Some Examples.content
  /\ Examples.deleteComment Examples.listed Examples.stored
     = (Returned,
        let kept :=
          "id-0,/src/a.ts,1-2,Typo,Fix it" +:+ LF
          +:+ "id-2,/src/y.ts,3,Naming,Rename this" +:+ LF in
        mkWorld (Some kept) [ReadFileSync; WriteFileSync kept])
  /\ reviewFileContent (Examples.deleteComment Examples.unlisted Examples.stored).2
     = Some Examples.content.
Proof.
  pose proof (@deleteComment_removes_one_row
                specWorkspaceUtil (specStorageUtils LF) Examples.host
                "/ws/code-review.csv" Examples.listed Examples.stored Examples.content
                eq_refl) as Hlisted.
  pose proof (@deleteComment_removes_one_row
                specWorkspaceUtil (specStorageUtils LF) Examples.host
                "/ws/code-review.csv" Examples.unlisted Examples.stored Examples.content
                eq_refl) as Hunlisted.
  cbv zeta in Hlisted, Hunlisted.
  destruct Hlisted as [_ Hfound]. destruct Hunlisted as [Hnone _].
  split; [reflexivity|]. split.
  - unfold Examples.deleteComment.
    destruct (Hfound 1%nat "id-1,/src/x.ts,5-10,Naming,Rename this") as [-> _].
    + first_match_by_evaluation.
    + reflexivity.
    + reflexivity.
  - unfold Examples.deleteComment. rewrite Hnone; [reflexivity|].
    intros row Hrow. vm_compute in Hrow.
    repeat (apply elem_of_cons in Hrow as [-> | Hrow]; [vm_compute; reflexivity|]).
    inversion Hrow.
Defined.


(** ** Further properties: reading back what was written *)

(** Characters of a separator already recognized are passed over. *)
Lemma splitFrom_skip (sep x rest cur : string) :
  splitFrom sep (String.length x) cur (x +:+ rest) = splitFrom sep O cur rest.
Proof.
  induction x as [|c x IH]; simpl; [|done].
  by destruct rest.
Qed.

(** A line without the first character of the separator, followed by
    the separator, is split off as it is. *)
Lemma splitFrom_line (ch : ascii) (sep' row rest cur : string) :
  lacks ch row = true ->
  splitFrom (String ch sep') O cur (row +:+ String ch sep' +:+ rest)
  = String.rev_app cur row :: splitFrom (String ch sep') O "" rest.
Proof.
  revert cur. induction row as [|c row IH]; intros cur Hrow.
  - simpl. rewrite Ascii.eqb_refl. cbn [andb].
    assert (startsWith (sep' +:+ rest) sep' = true) as ->
      by (apply startsWith_spec; by exists rest).
    by rewrite splitFrom_skip.
  - simpl in Hrow. apply andb_prop in Hrow as [Hc Hrow].
    simpl. destruct (Ascii.eqb c ch); [done|]. cbn [andb].
    by rewrite IH.
Qed.

(** The lines of a file in which every line is terminated: the rows,
    and an empty last piece after the last terminator. *)
Lemma split_terminated (ch : ascii) (sep' : string) (rows : list string) :
  Forall (fun row => lacks ch row = true) rows ->
  split (terminated (String ch sep') rows) (String ch sep') = rows ++ [""].
Proof.
  unfold split. induction 1 as [|row rows Hrow Hrows IH]; [done|].
  cbn [terminated]. rewrite splitFrom_line by done. simpl. by rewrite IH.
Qed.

Lemma join_terminated (sep : string) (rows : list string) :
  rows <> [] -> join sep rows +:+ sep = terminated sep rows.
Proof.
  induction rows as [|row rows IH]; [done|]. intros _.
  destruct rows as [|row' rows].
  - simpl. by rewrite append_empty_r.
  - change (join sep (row :: row' :: rows)) with (row +:+ sep +:+ join sep (row' :: rows)).
    change (terminated sep (row :: row' :: rows))
      with (row +:+ sep +:+ terminated sep (row' :: rows)).
    rewrite <- IH by done. by rewrite !append_assoc.
Qed.

Lemma terminated_app (sep : string) (rows rows' : list string) :
  terminated sep (rows ++ rows') = terminated sep rows +:+ terminated sep rows'.
Proof.
  induction rows as [|row rows IH]; simpl; [done|].
  by rewrite IH, !append_assoc.
Qed.

Lemma includes_empty (s : string) : includes s "" = true.
Proof. apply includes_spec. by exists "", s. Qed.

Lemma firstMatch_app {A : Type} (p : A -> bool) (l l' : list A) (i : nat) :
  firstMatch p l i -> firstMatch p (l ++ l') i /\ (i < length l)%nat.
Proof.
  intros [[x [Hx Hpx]] Hmin].
  assert (i < length l)%nat as Hi by (by eapply lookup_lt_Some).
  split; [|done]. split.
  - exists x. by rewrite lookup_app_l.
  - intros j y Hj Hy. apply (Hmin j y Hj). by rewrite lookup_app_l in Hy by lia.
Qed.

Lemma filter_all (keep : string -> bool) (rows : list string) :
  Forall (fun row => keep row = true) rows -> List.filter keep rows = rows.
Proof.
  induction 1 as [|row rows Hrow Hrows IH]; simpl; [done|]. by rewrite Hrow, IH.
Qed.

Section FurtherStoreOperations.
Context `{!WorkspaceUtil, !EditorUtils, !StorageUtils, !Host}.
Context (reviewFile workspaceRoot : string).

(** X1: what [persistComments] writes is read back, line by line, as
    the rows the normalization kept followed by one empty piece,
    provided there is a row to write and no row holds the first
    character of the line terminator. *)
Theorem persistComments_read_back (ch : ascii) (sep' : string)
    (rows : list string) (w : World) :
  EOL = String ch sep' ->
  cleanCsvStorage rows <> [] ->
  Forall (fun row => lacks ch row = true) (cleanCsvStorage rows) ->
  exists content,
    reviewFileContent (persistComments rows true w).2 = Some content
    /\ split content EOL = cleanCsvStorage rows ++ [""].
Proof.
  intros Heol Hrows Hlacks. eexists. split; [reflexivity|].
  rewrite join_terminated by done. rewrite Heol. by apply split_terminated.
Qed.

(** [addComment] when there is no selection to refer to. *)
Lemma addComment_unselected_run (comment : CsvEntry.t)
    (editor : option TextEditor.t) (w : World) :
  editor = None \/ (exists ed, editor = Some ed /\ TextEditor.selection ed = None) ->
  addComment reviewFile workspaceRoot comment editor w
  = ((Returned, comment),
     mkWorld (reviewFileContent (checkFileExists reviewFile w).2)
       (events (checkFileExists reviewFile w).2
        ++ [ShowErrorMessage "Error referencing file/lines, Please select again."])).
Proof.
  intros Hnone. unfold addComment, bind.
  destruct (checkFileExists reviewFile w) as [[] w1].
  unfold getSelectedLines. cbn [andb].
  destruct Hnone as [-> | (ed & -> & ->)]; reflexivity.
Qed.

(** X2: without a selection to refer to, no editor or an editor
    without selection, [addComment] reports the error and returns: the
    comment is as it was, nothing is written and the file is as it was. *)
Theorem addComment_without_selection (comment : CsvEntry.t)
    (editor : option TextEditor.t) (w : World) :
  editor = None \/ (exists ed, editor = Some ed /\ TextEditor.selection ed = None) ->
  let result := addComment reviewFile workspaceRoot comment editor w in
  result.1 = (Returned, comment)
  /\ reviewFileContent result.2 = reviewFileContent w
  /\ writes (events result.2) = writes (events w)
  /\ events result.2
     = events (checkFileExists reviewFile w).2
       ++ [ShowErrorMessage "Error referencing file/lines, Please select again."].
Proof.
  intros Hnone result. subst result.
  rewrite (addComment_unselected_run comment editor w Hnone).
  destruct (checkFileExists_effect reviewFile w) as [Hfile Hwrites].
  cbn [fst snd reviewFileContent events].
  split; [done|]. split; [done|]. split; [|done].
  rewrite writes_app. cbn. by rewrite app_nil_r.
Qed.

(** X3: [addComment] only ever appends: whatever the editor, the
    content the file had is the beginning of the content it has
    afterwards, and the operation neither reads the file nor overwrites
    it. *)
Theorem addComment_only_appends (comment : CsvEntry.t)
    (editor : option TextEditor.t) (w : World) (old : string) :
  reviewFileContent w = Some old ->
  let result := addComment reviewFile workspaceRoot comment editor w in
  exists suffix new,
    reviewFileContent result.2 = Some (old +:+ suffix)
    /\ events result.2 = events w ++ new
    /\ (ReadFileSync ∉ new)
    /\ (forall content, WriteFileSync content ∉ new).
Proof.
  intros Hw result. subst result.
  pose proof (checkFileExists_present reviewFile w old Hw) as Hcheck.
  assert (forall e : Event,
            e <> ReadFileSync -> (forall content, e <> WriteFileSync content) ->
            (ReadFileSync ∉ [e]) /\ (forall content, WriteFileSync content ∉ [e])) as Hone.
  { intros e Hread Hwrite. split; [|intros content]; intros Hin;
      apply list_elem_of_singleton in Hin; [by apply Hread|by apply (Hwrite content)]. }
  destruct editor as [ed|]; [destruct (TextEditor.selection ed) as [sel|] eqn:Hsel|].
  - rewrite (addComment_run reviewFile workspaceRoot comment ed sel w Hsel).
    rewrite Hcheck. cbn [fst snd reviewFileContent events]. rewrite Hw. cbn [default].
    eexists _, [_]. split; [reflexivity|]. split; [reflexivity|]. by apply Hone.
  - rewrite (addComment_unselected_run comment (Some ed) w) by eauto.
    rewrite Hcheck. cbn [fst snd reviewFileContent events].
    eexists "", [_]. rewrite append_empty_r.
    split; [done|]. split; [reflexivity|]. by apply Hone.
  - rewrite (addComment_unselected_run comment None w) by eauto.
    rewrite Hcheck. cbn [fst snd reviewFileContent events].
    eexists "", [_]. rewrite append_empty_r.
    split; [done|]. split; [reflexivity|]. by apply Hone.
Qed.

(** X4: on a file in which every line is terminated, [addComment] with
    a selection adds one line, the row of the comment with its lines and
    file name refreshed: the file read back holds the former rows, then
    the new row. This needs the new row to be one physical line that
    the normalization keeps. *)
Theorem addComment_adds_one_row (ch : ascii) (sep' : string) (rows : list string)
    (comment : CsvEntry.t) (ed : TextEditor.t) (sel : TextEditor.Selection) (w : World) :
  EOL = String ch sep' ->
  reviewFileContent w = Some (terminated EOL rows) ->
  Forall (fun row => lacks ch row = true) rows ->
  TextEditor.selection ed = Some sel ->
  let added :=
    CsvEntry.with_filename
      (CsvEntry.with_lines comment (getSelectionStringDefinition ed))
      (replace (TextEditor.fileName (TextEditor.document ed)) workspaceRoot "") in
  let row := buildCsvString workspaceRoot added in
  lacks ch row = true ->
  cleanCsvStorage [row] = [row] ->
  let result := addComment reviewFile workspaceRoot comment (Some ed) w in
  result.1 = (Returned, added)
  /\ reviewFileContent result.2 = Some (terminated EOL (rows ++ [row]))
  /\ split (terminated EOL (rows ++ [row])) EOL = rows ++ [row; ""]
  /\ events result.2 = events w ++ [AppendFileSync (row +:+ EOL)].
Proof.
  intros Heol Hw Hrows Hsel added row Hrow Hclean result. subst result.
  rewrite (addComment_run reviewFile workspaceRoot comment ed sel w Hsel). cbv zeta.
  fold added. fold row.
  rewrite (checkFileExists_present reviewFile w _ Hw), Hclean.
  cbn [fst snd reviewFileContent events join]. rewrite Hw. cbn [default].
  split; [done|]. split; [|split; [|done]].
  - rewrite terminated_app. cbn [terminated]. by rewrite append_empty_r.
  - rewrite Heol, split_terminated.
    + by rewrite <- app_assoc.
    + apply Forall_app. split; [done|]. by apply Forall_singleton.
Qed.


(** X6: with an active selection in the editor, [updateComment] gives
    the comment the definition of the new selection as its lines, yet
    still looks the row up by the lines the comment had before; the row
    found is rewritten from the comment with the new lines. *)
Theorem updateComment_refreshes_lines (comment : CsvEntry.t) (ed : TextEditor.t)
    (sel : TextEditor.Selection) (w : World) (content : string) (i : nat) :
  hasSelection (Some ed) = true ->
  TextEditor.selection ed = Some sel ->
  reviewFileContent w = Some content ->
  let rows := csvFileLines content in
  let refreshed := CsvEntry.with_lines comment (getSelectionStringDefinition ed) in
  (forall row, row ∈ rows -> includes row (CsvEntry.id comment) = false) ->
  firstMatch (fun row => includes row (CsvEntry.filename comment)
                         && includes row (CsvEntry.lines comment)) rows i ->
  let rewritten :=
    join EOL (cleanCsvStorage (<[i := buildCsvString workspaceRoot refreshed]> rows))
    +:+ EOL in
  updateComment reviewFile workspaceRoot comment (Some ed) w
  = ((Returned, refreshed),
     mkWorld (Some rewritten) (events w ++ [ReadFileSync; WriteFileSync rewritten])).
Proof.
  intros Hhas Hsel Hw rows refreshed Hnone Hi rewritten.
  apply (updateComment_rewrites reviewFile workspaceRoot comment refreshed (Some ed)
           w content i Hw).
  - unfold getSelectedLines. rewrite Hhas, Hsel. done.
  - right. done.
Qed.

(** X7: a comment whose identifier is the empty string is found in
    every row, since every text contains the empty text: [updateComment]
    then replaces the first row of the file, whatever it holds, and the
    lookup by file name and lines is never tried. *)
Theorem updateComment_empty_id_replaces_first_row (comment c' : CsvEntry.t)
    (editor : option TextEditor.t) (w : World) (content first : string)
    (others : list string) :
  CsvEntry.id comment = "" ->
  reviewFileContent w = Some content ->
  csvFileLines content = first :: others ->
  getSelectedLines comment editor true w = ((true, c'), w) ->
  let rewritten :=
    join EOL (cleanCsvStorage (buildCsvString workspaceRoot c' :: others)) +:+ EOL in
  updateComment reviewFile workspaceRoot comment editor w
  = ((Returned, c'),
     mkWorld (Some rewritten) (events w ++ [ReadFileSync; WriteFileSync rewritten])).
Proof.
  intros Hid Hw Hrows Hsel rewritten.
  rewrite (updateComment_rewrites reviewFile workspaceRoot comment c' editor w content O
             Hw Hsel).
  - cbv zeta. by rewrite Hrows.
  - left. rewrite Hrows, Hid. split.
    + exists first. split; [done|apply includes_empty].
    + intros j y Hj. lia.
Qed.

(** X8: on a file in which every line is terminated and is a row the
    normalization keeps, [deleteComment] writes the file of the other
    rows: read back, it holds the rows without the one removed. When the
    row removed was the only one, the file is left with a single line
    terminator, not empty. *)
Theorem deleteComment_rewrites_terminated_file (ch : ascii) (sep' : string)
    (rows : list string) (keep : string -> bool) (entry : CommentListEntry.t)
    (w : World) (i : nat) :
  EOL = String ch sep' ->
  reviewFileContent w = Some (terminated EOL rows) ->
  Forall (fun row => lacks ch row = true) rows ->
  (forall l, cleanCsvStorage l = List.filter keep l) ->
  keep "" = false ->
  Forall (fun row => keep row = true) rows ->
  firstMatch
    (fun row => includes row (CommentListEntry.label entry)
                && includes row (escapeEndOfLineForCsv
                                   (escapeDoubleQuotesForCsv (CommentListEntry.text entry))))
    rows i ->
  let kept := delete i rows in
  reviewFileContent (deleteComment reviewFile entry w).2 = Some (join EOL kept +:+ EOL)
  /\ (kept <> [] ->
      join EOL kept +:+ EOL = terminated EOL kept
      /\ split (join EOL kept +:+ EOL) EOL = kept ++ [""])
  /\ (kept = [] -> join EOL kept +:+ EOL = EOL).
Proof.
  intros Heol Hw Hlacks Hclean Hempty Hkeep Hi kept.
  assert (split (terminated EOL rows) EOL = rows ++ [""]) as Hsplit
    by (rewrite Heol; by apply split_terminated).
  destruct (firstMatch_app _ rows [""] i Hi) as [Hi' Hlt].
  rewrite <- Hsplit in Hi'.
  rewrite (deleteComment_removes reviewFile entry w _ i Hw Hi'). cbv zeta.
  cbn [snd reviewFileContent].
  assert (Forall (fun row => keep row = true) kept) as Hkept.
  { apply Forall_forall. intros row Hrow.
    apply (proj1 (Forall_forall _ rows) Hkeep). by eapply list_elem_of_delete_inv. }
  assert (Forall (fun row => lacks ch row = true) kept) as Hklacks.
  { apply Forall_forall. intros row Hrow.
    apply (proj1 (Forall_forall _ rows) Hlacks). by eapply list_elem_of_delete_inv. }
  split; [|split].
  - rewrite Hsplit, Hclean.
    assert (delete i (rows ++ [""]) = kept ++ [""]) as ->.
    { unfold kept. rewrite !delete_take_drop.
      rewrite take_app_le, drop_app_le by lia. by rewrite <- app_assoc. }
    rewrite List.filter_app. simpl. rewrite Hempty, app_nil_r.
    by rewrite filter_all.
  - intros Hsome. rewrite join_terminated by done. split; [done|].
    rewrite Heol. by apply split_terminated.
  - intros ->. done.
Qed.

End FurtherStoreOperations.

(** ** Further properties: the remote URL builder *)

Lemma samePlaceholder_eq (k k' : Placeholder) : samePlaceholder k k' = true <-> k = k'.
Proof. by destruct k, k'. Qed.

(** One replacement on a template whose braces are those of its
    placeholders fills the first occurrence of the placeholder. *)
Lemma replaceFrom_render (k : Placeholder) (value : string) (template : list Part)
    (before : string) :
  literalsLack "{" template ->
  lacks "$" value = true ->
  replaceFrom before (render template) (token k) value
  = render (fillFirst k value template).
Proof.
  intros Hlits Hvalue. revert before.
  induction Hlits as [|part template Hpart Hlits IH]; intros before.
  - by destruct k.
  - destruct part as [text|k']; cbn [render fillFirst].
    + destruct k; cbn [token] in *; rewrite replaceFrom_skip by done; by rewrite IH.
    + remember (render template) as rest eqn:Hrest.
      destruct k, k'; cbn [token samePlaceholder render] in *; simpl;
        rewrite ?getSubstitution_plain by done; rewrite ?IH, <- ?Hrest; done.
Qed.

Lemma fillFirst_literalsLack (k : Placeholder) (value : string) (template : list Part) :
  literalsLack "{" template -> lacks "{" value = true ->
  literalsLack "{" (fillFirst k value template).
Proof.
  intros Hlits Hvalue.
  induction Hlits as [|part template Hpart Hlits IH]; cbn [fillFirst]; [constructor|].
  destruct part as [text|k']; [by constructor|].
  destruct (samePlaceholder k k'); by constructor.
Qed.








(** X9: on a custom template whose opening braces are all those of
    placeholders, and for a SHA and a file path without brace and
    dollar sign, the remote URL is the template in which the first
    occurrence of each of the four placeholders, if any, is filled:
    with the SHA, the file path without leading and trailing slash,
    the start line and the end line, [0] standing for a line that is
    missing. *)
Theorem remoteUrl_custom_template `{!WorkspaceUtil} (host : Host)
    (template : list Part) (sha filePath : string) (start end_ : number) :
  truthy customUrl = true ->
  customUrl = render template ->
  literalsLack "{" template ->
  plain sha = true ->
  plain (removeLeadingAndTrailingSlash filePath) = true ->
  remoteUrl sha filePath start end_
  = render
      (fillFirst EndP (substituted EndP sha filePath start end_)
         (fillFirst StartP (substituted StartP sha filePath start end_)
            (fillFirst FileP (substituted FileP sha filePath start end_)
               (fillFirst ShaP (substituted ShaP sha filePath start end_) template)))).
Proof.
  intros Htruthy Hrender Hlits Hsha Hfile.
  pose proof (plain_line_number start) as Hstart.
  pose proof (plain_line_number end_) as Hend.
  unfold plain in *.
  apply andb_prop in Hsha as [? ?]. apply andb_prop in Hfile as [? ?].
  apply andb_prop in Hstart as [? ?]. apply andb_prop in Hend as [? ?].
  unfold remoteUrl. rewrite Htruthy, andb_false_r, Hrender.
  unfold replace. cbn [substituted].
  change "{sha}" with (token ShaP). change "{file}" with (token FileP).
  change "{start}" with (token StartP). change "{end}" with (token EndP).
  rewrite !replaceFrom_render; auto using fillFirst_literalsLack.
Qed.

Lemma placeholders_fillFirst (k k' : Placeholder) (value : string) (template : list Part) :
  k ∉ placeholders template -> k ∉ placeholders (fillFirst k' value template).
Proof.
  induction template as [|part template IH]; [done|].
  destruct part as [text|k'']; cbn [fillFirst placeholders omap]; [done|].
  intros Hnot. apply not_elem_of_cons in Hnot as [Hne Hnot].
  destruct (samePlaceholder k' k''); cbn [placeholders omap]; [done|].
  apply not_elem_of_cons. split; [done|by apply IH].
Qed.

Lemma fillFirst_absent (k : Placeholder) (value : string) (template : list Part) :
  k ∉ placeholders template -> fillFirst k value template = template.
Proof.
  induction template as [|part template IH]; [done|].
  destruct part as [text|k']; cbn [fillFirst placeholders omap].
  - intros Hnot. by rewrite IH.
  - intros Hnot. apply not_elem_of_cons in Hnot as [Hne Hnot].
    destruct (samePlaceholder k k') eqn:Hsame.
    + apply samePlaceholder_eq in Hsame. done.
    + by rewrite IH.
Qed.

(** Filling the first occurrence of each placeholder fills them all
    when none occurs twice. *)
Lemma fillFirst_each_once (values : Placeholder -> string) (template : list Part) :
  NoDup (placeholders template) ->
  fillFirst EndP (values EndP)
    (fillFirst StartP (values StartP)
       (fillFirst FileP (values FileP)
          (fillFirst ShaP (values ShaP) template)))
  = fillAll values template.
Proof.
  induction template as [|part template IH]; [done|].
  destruct part as [text|k]; cbn [placeholders omap]; intros Hnodup.
  - change (fillAll values (Literal text :: template))
      with (Literal text :: fillAll values template).
    cbn [fillFirst]. f_equal. by apply IH.
  - apply NoDup_cons in Hnodup as [Hnot Hnodup].
    specialize (IH Hnodup).
    change (fillAll values (Slot k :: template))
      with (Literal (values k) :: fillAll values template).
    rewrite <- IH.
    destruct k; cbn [fillFirst samePlaceholder]; f_equal.
    + by rewrite (fillFirst_absent ShaP).
    + by rewrite (fillFirst_absent FileP) by (by apply placeholders_fillFirst).
    + by rewrite (fillFirst_absent StartP) by (by do 2 apply placeholders_fillFirst).
    + by rewrite (fillFirst_absent EndP) by (by do 3 apply placeholders_fillFirst).
Qed.

(** X10: on such a template in which no placeholder occurs twice, every
    placeholder is filled: no placeholder is left in the remote URL. *)
Theorem remoteUrl_custom_each_placeholder_once `{!WorkspaceUtil} (host : Host)
    (template : list Part) (sha filePath : string) (start end_ : number) :
  truthy customUrl = true ->
  customUrl = render template ->
  literalsLack "{" template ->
  NoDup (placeholders template) ->
  plain sha = true ->
  plain (removeLeadingAndTrailingSlash filePath) = true ->
  remoteUrl sha filePath start end_
  = render (fillAll (fun k => substituted k sha filePath start end_) template)
  /\ placeholders (fillAll (fun k => substituted k sha filePath start end_) template) = [].
Proof.
  intros Htruthy Hrender Hlits Hnodup Hsha Hfile. split.
  - rewrite <- (fillFirst_each_once (fun k => substituted k sha filePath start end_))
      by done.
    unfold remoteUrl. rewrite Htruthy, andb_false_r, Hrender.
    pose proof (plain_line_number start) as Hstart.
    pose proof (plain_line_number end_) as Hend.
    unfold plain in *.
    apply andb_prop in Hsha as [? ?]. apply andb_prop in Hfile as [? ?].
    apply andb_prop in Hstart as [? ?]. apply andb_prop in Hend as [? ?].
    unfold replace. cbn [substituted].
    change "{sha}" with (token ShaP). change "{file}" with (token FileP).
    change "{start}" with (token StartP). change "{end}" with (token EndP).
    rewrite !replaceFrom_render; auto using fillFirst_literalsLack.
  - clear. induction template as [|[text|k] template IH]; done.
Qed.

(** X11: a line number that is zero is handled as a line number that
    is missing, for the start and for the end, whatever the settings. *)
Theorem remoteUrl_zero_line_is_missing `{!WorkspaceUtil} (host : Host)
    (sha filePath : string) (start end_ : number) :
  remoteUrl sha filePath (Some 0) end_ = remoteUrl sha filePath None end_
  /\ remoteUrl sha filePath start (Some 0) = remoteUrl sha filePath start None.
Proof. unfold remoteUrl. cbn [truthyNum Z.eqb negb andb]. by rewrite andb_false_r. Qed.

Lemma getSubstitution_skip (matched before after x rest : string) :
  lacks "$" x = true ->
  getSubstitution matched before after false (x +:+ rest)
  = x +:+ getSubstitution matched before after false rest.
Proof.
  induction x as [|c x IH]; [done|]. intros Hx.
  simpl in Hx. apply andb_prop in Hx as [Hc Hx].
  change (String c x +:+ rest) with (String c (x +:+ rest)).
  cbn [getSubstitution]. destruct (Ascii.eqb c "$"); [done|]. by rewrite IH.
Qed.

Ltac replace_walk :=
  repeat first
    [ match goal with
      | |- context [replaceFrom ?b (?x +:+ ?r) (String ?ch ?p) ?rep] =>
          rewrite (replaceFrom_skip ch p rep x r b) by done
      end
    | match goal with
      | |- context [replaceFrom ?b ?s (String ?ch ?p) ?rep] =>
          rewrite (replaceFrom_lacks ch p rep s b) by done
      end
    | match goal with
      | |- context [getSubstitution ?m ?b ?a false (?x +:+ ?r)] =>
          rewrite (getSubstitution_skip m b a x r) by done
      end
    | rewrite getSubstitution_plain by done
    | rewrite append_assoc
    | progress simpl ].

(** X12: the four replacements are made one after the other, on the
    result of the one before: a file path that itself holds the text of
    the start placeholder has it replaced by the start line, although
    the template has no such placeholder. *)
Theorem remoteUrl_custom_replaces_within_file_path `{!WorkspaceUtil} (host : Host)
    (a b x y sha filePath : string) (start end_ : number) :
  customUrl = a +:+ "{file}" +:+ b ->
  lacks "{" a = true -> lacks "{" b = true ->
  removeLeadingAndTrailingSlash filePath = x +:+ "{start}" +:+ y ->
  plain x = true -> plain y = true ->
  remoteUrl sha filePath start end_
  = a +:+ x +:+ (if truthyNum start then numToString start else "0") +:+ y +:+ b.
Proof.
  intros Hc Ha Hb Hfile Hx Hy.
  pose proof (plain_line_number start) as Hstart.
  unfold plain in *.
  apply andb_prop in Hx as [? ?]. apply andb_prop in Hy as [? ?].
  apply andb_prop in Hstart as [? ?].
  unfold remoteUrl.
  assert (truthy customUrl = true) as -> by (rewrite Hc; apply truthy_append).
  rewrite andb_false_r, Hc, Hfile. unfold replace.
  set (first := if truthyNum start then numToString start else "0") in *.
  set (last := if truthyNum end_ then numToString end_ else "0") in *.
  replace_walk. done.
Qed.

(** X13: a dollar sign in the file path is read as a replacement
    pattern: where the path holds a dollar sign and an ampersand the
    URL holds the text of the file placeholder, and two dollar signs of
    the path are one in the URL. *)
Theorem remoteUrl_custom_dollar_in_file_path `{!WorkspaceUtil} (host : Host)
    (a b x y sha filePath : string) (start end_ : number) :
  customUrl = a +:+ "{file}" +:+ b ->
  lacks "{" a = true -> lacks "{" b = true ->
  plain x = true -> plain y = true ->
  (removeLeadingAndTrailingSlash filePath = x +:+ "$&" +:+ y ->
   remoteUrl sha filePath start end_ = a +:+ x +:+ "{file}" +:+ y +:+ b)
  /\ (removeLeadingAndTrailingSlash filePath = x +:+ "$$" +:+ y ->
      remoteUrl sha filePath start end_ = a +:+ x +:+ "$" +:+ y +:+ b).
Proof.
  intros Hc Ha Hb Hx Hy.
  unfold plain in *.
  apply andb_prop in Hx as [? ?]. apply andb_prop in Hy as [? ?].
  assert (truthy customUrl = true) as Htruthy by (rewrite Hc; apply truthy_append).
  split; intros Hfile; unfold remoteUrl;
    rewrite Htruthy, andb_false_r, Hc, Hfile; unfold replace;
    set (first := if truthyNum start then numToString start else "0");
    set (last := if truthyNum end_ then numToString end_ else "0");
    replace_walk; done.
Qed.

(** ** Further properties: the CSV line and the empty search keys *)

Lemma splitFrom_cons (sep s cur : string) (skip : nat) :
  exists first others, splitFrom sep skip cur s = first :: others.
Proof.
  revert skip cur. induction s as [|c s IH]; intros skip cur; simpl; [eauto|].
  destruct skip as [|skip]; [|apply IH].
  destruct (startsWith _ _); [eauto|apply IH].
Qed.

Section FurtherRows.
Context `{!WorkspaceUtil, !EditorUtils, !StorageUtils, !Host}.
Context (reviewFile workspaceRoot : string).

(** X14: when no commit can be found for the repository, the CSV line
    is still built, with an empty SHA; with a base URL and no custom
    URL configured, its URL then has no SHA segment. *)
Theorem buildCsvString_without_commit (comment : CsvEntry.t) :
  gitCommitId (path_resolve workspaceRoot gitDirectory) = None ->
  truthy customUrl = false -> truthy baseUrl = true ->
  buildCsvString workspaceRoot comment
  = formatAsCsvLine
      (CsvEntry.mk ""
         (CsvEntry.filename comment)
         (removeTrailingSlash baseUrl +:+ "/"
          +:+ removeLeadingAndTrailingSlash (CsvEntry.filename comment)
          +:+ (if truthyNum (startLineNumberFromStringDefinition (CsvEntry.lines comment))
                  && truthyNum (endLineNumberFromStringDefinition (CsvEntry.lines comment))
               then "#L"
                    +:+ numToString
                          (startLineNumberFromStringDefinition (CsvEntry.lines comment))
                    +:+ "-L"
                    +:+ numToString
                          (endLineNumberFromStringDefinition (CsvEntry.lines comment))
               else ""))
         (CsvEntry.lines comment)
         (if truthy (CsvEntry.title comment)
          then escapeDoubleQuotesForCsv (CsvEntry.title comment) else "")
         (escapeEndOfLineForCsv (escapeDoubleQuotesForCsv (CsvEntry.comment comment)))
         (CsvEntry.priority comment)
         (CsvEntry.category comment)
         (if truthy (CsvEntry.additional comment)
          then escapeDoubleQuotesForCsv (CsvEntry.additional comment) else "")
         (CsvEntry.id comment)).
Proof.
  intros Hgit Hcustom Hbase. unfold buildCsvString, remoteUrl.
  by rewrite Hgit, Hcustom, Hbase.
Qed.

(** X15: an entry with an empty label and a text whose escaped form is
    empty is found in every line, even an empty one: [deleteComment]
    then removes the first line of the file, whatever it holds. *)
Theorem deleteComment_empty_keys_remove_first_line (entry : CommentListEntry.t)
    (w : World) (content : string) :
  CommentListEntry.label entry = "" ->
  escapeEndOfLineForCsv (escapeDoubleQuotesForCsv (CommentListEntry.text entry)) = "" ->
  reviewFileContent w = Some content ->
  exists first others,
    split content EOL = first :: others
    /\ reviewFileContent (deleteComment reviewFile entry w).2
       = Some (join EOL (cleanCsvStorage others) +:+ EOL).
Proof.
  intros Hlabel Htext Hw.
  destruct (splitFrom_cons EOL content "" O) as (first & others & Hsplit).
  exists first, others. split; [done|].
  rewrite (deleteComment_removes reviewFile entry w content O Hw).
  - cbv zeta. unfold split. by rewrite Hsplit.
  - unfold split. rewrite Hsplit, Hlabel, Htext. split.
    + exists first. split; [done|]. by rewrite includes_empty.
    + intros j y Hj. lia.
Qed.

End FurtherRows.

(** ** Further properties: adding a row, then deleting it *)

Lemma firstMatch_last {A : Type} (p : A -> bool) (l : list A) (x : A) :
  (forall y, y ∈ l -> p y = false) -> p x = true ->
  firstMatch p (l ++ [x]) (length l).
Proof.
  intros Hnone Hx. split.
  - exists x. split; [|done]. by rewrite lookup_app_r, Nat.sub_diag by lia.
  - intros j y Hj Hy. rewrite lookup_app_l in Hy by done.
    apply Hnone. by eapply list_elem_of_lookup_2.
Qed.

Section AddThenDelete.
Context `{!WorkspaceUtil, !EditorUtils, !StorageUtils, !Host}.
Context (reviewFile workspaceRoot : string).

(** X16: on a file in which every line is terminated, adding a comment
    and then deleting the entry that only the new row contains gives
    back the rows the file had. The file itself is back to what it was,
    unless it was empty: then it is left with one line terminator. *)
Theorem addComment_then_deleteComment (ch : ascii) (sep' : string)
    (rows : list string) (keep : string -> bool)
    (comment : CsvEntry.t) (ed : TextEditor.t) (sel : TextEditor.Selection)
    (entry : CommentListEntry.t) (w : World) :
  EOL = String ch sep' ->
  reviewFileContent w = Some (terminated EOL rows) ->
  Forall (fun row => lacks ch row = true) rows ->
  (forall l, cleanCsvStorage l = List.filter keep l) ->
  keep "" = false ->
  Forall (fun row => keep row = true) rows ->
  TextEditor.selection ed = Some sel ->
  let row :=
    buildCsvString workspaceRoot
      (CsvEntry.with_filename
         (CsvEntry.with_lines comment (getSelectionStringDefinition ed))
         (replace (TextEditor.fileName (TextEditor.document ed)) workspaceRoot "")) in
  let matching :=
    fun line => includes line (CommentListEntry.label entry)
                && includes line (escapeEndOfLineForCsv
                                    (escapeDoubleQuotesForCsv
                                       (CommentListEntry.text entry))) in
  lacks ch row = true -> keep row = true ->
  matching row = true ->
  (forall line, line ∈ rows -> matching line = false) ->
  let added := (addComment reviewFile workspaceRoot comment (Some ed) w).2 in
  reviewFileContent (deleteComment reviewFile entry added).2
  = Some match rows with
         | [] => EOL
         | _ :: _ => terminated EOL rows
         end.
Proof.
  intros Heol Hw Hlacks Hclean Hempty Hkeep Hsel row matching Hrow Hkeeprow
    Hmatch Hnone added.
  assert (reviewFileContent added = Some (terminated EOL (rows ++ [row]))) as Hadded.
  { subst added.
    rewrite (addComment_run reviewFile workspaceRoot comment ed sel w Hsel). cbv zeta.
    fold row. rewrite (checkFileExists_present reviewFile w _ Hw).
    cbn [snd reviewFileContent]. rewrite Hw, Hclean. cbn [default List.filter].
    rewrite Hkeeprow. cbn [join].
    rewrite terminated_app. cbn [terminated]. by rewrite append_empty_r. }
  assert (split (terminated EOL (rows ++ [row])) EOL = (rows ++ [row]) ++ [""]) as Hsplit.
  { rewrite Heol. apply split_terminated. apply Forall_app. split; [done|].
    by apply Forall_singleton. }
  assert (firstMatch matching (split (terminated EOL (rows ++ [row])) EOL) (length rows))
    as Hfirst.
  { rewrite Hsplit. apply firstMatch_app. by apply firstMatch_last. }
  rewrite (deleteComment_removes reviewFile entry added _ (length rows) Hadded Hfirst).
  cbv zeta. cbn [snd reviewFileContent]. rewrite Hsplit, Hclean.
  rewrite <- app_assoc. change ([row] ++ [""]) with (row :: [""]).
  rewrite delete_middle.
  rewrite List.filter_app. simpl. rewrite Hempty, app_nil_r, filter_all by done.
  destruct rows as [|first others]; [done|].
  by rewrite join_terminated.
Qed.

End AddThenDelete.

(** ** The further properties on example inputs *)

(** Two rows and an empty one between them, written and read back. *)
Lemma persistComments_read_back_witness :
  exists content,
    reviewFileContent
      (@persistComments (specStorageUtils LF) Examples.host ["a"; ""; "b"] true
         Examples.missing).2 = Some content
    /\ split content LF = ["a"; "b"; ""].
Proof.
  refine (@persistComments_read_back (specStorageUtils LF) Examples.host
            "010" "" ["a"; ""; "b"] Examples.missing eq_refl _ _).
  - vm_compute. discriminate.
  - vm_compute. repeat constructor.
Defined.

(** No editor at all. *)
Lemma addComment_without_selection_witness :
  (Examples.addComment Examples.comment None Examples.stored).1
  = (Returned, Examples.comment)
  /\ reviewFileContent (Examples.addComment Examples.comment None Examples.stored).2
     = Some Examples.content.
Proof.
  pose proof (@addComment_without_selection
                specWorkspaceUtil specEditorUtils (specStorageUtils LF) Examples.host
                "/ws/code-review.csv" "/ws" Examples.comment None Examples.stored
                (or_introl eq_refl)) as Hrun.
  cbv zeta in Hrun. destruct Hrun as (Hresult & Hfile & _).
  split; [exact Hresult | exact Hfile].
Defined.

(** The example file is the beginning of what it is after an addition. *)
Lemma addComment_only_appends_witness :
  exists suffix,
    reviewFileContent
      (Examples.addComment Examples.comment (Some Examples.selecting) Examples.stored).2
    = Some (Examples.content +:+ suffix).
Proof.
  destruct (@addComment_only_appends
              specWorkspaceUtil specEditorUtils (specStorageUtils LF) Examples.host
              "/ws/code-review.csv" "/ws" Examples.comment (Some Examples.selecting)
              Examples.stored Examples.content eq_refl)
    as (suffix & new & Hfile & _).
  exists suffix. exact Hfile.
Defined.

(** A fourth row is added to the three of the example file. *)
Lemma addComment_adds_one_row_witness :
  reviewFileContent
    (Examples.addComment Examples.comment (Some Examples.selecting) Examples.stored).2
  = Some
      (Examples.content
       +:+ Examples.buildCsvString (CsvEntry.with_lines Examples.comment "7-9") +:+ LF)
  /\ length
       (split
          (Examples.content
           +:+ Examples.buildCsvString (CsvEntry.with_lines Examples.comment "7-9")
           +:+ LF) LF) = 5%nat.
Proof.
  pose proof (@addComment_adds_one_row
                specWorkspaceUtil specEditorUtils (specStorageUtils LF) Examples.host
                "/ws/code-review.csv" "/ws" "010" ""
                ["id-0,/src/a.ts,1-2,Typo,Fix it";
                 "id-1,/src/x.ts,5-10,Naming,Rename this";
                 "id-2,/src/y.ts,3,Naming,Rename this"]
                Examples.comment Examples.selecting
                (TextEditor.mkSelection (TextEditor.mkPosition 7 0) (TextEditor.mkPosition 9 4))
                Examples.stored eq_refl eq_refl) as Hrun.
  cbv zeta in Hrun.
  destruct Hrun as (_ & Hfile & Hsplit & _).
  - repeat constructor.
  - reflexivity.
  - vm_compute. reflexivity.
  - vm_compute. reflexivity.
  - split.
    + unfold Examples.addComment. rewrite Hfile. vm_compute. reflexivity.
    + vm_compute. reflexivity.
Defined.


(** A comment without identifier in the file, found by its file name
    and former lines, gets the lines of the new selection. *)
Lemma updateComment_refreshes_lines_witness :
  CsvEntry.lines
    (Examples.updateComment
       (CsvEntry.mk "" "/src/x.ts" "" "5-10" "Naming" "Rename this" 1 "" "" "id-9")
       (Some Examples.selecting) Examples.stored).1.2
  = "7-9".
Proof.
  unfold Examples.updateComment.
  rewrite (@updateComment_refreshes_lines
             specWorkspaceUtil specEditorUtils (specStorageUtils LF) Examples.host
             "/ws/code-review.csv" "/ws"
             (CsvEntry.mk "" "/src/x.ts" "" "5-10" "Naming" "Rename this" 1 "" "" "id-9")
             Examples.selecting
             (TextEditor.mkSelection (TextEditor.mkPosition 7 0) (TextEditor.mkPosition 9 4))
             Examples.stored Examples.content 1%nat eq_refl eq_refl eq_refl).
  - reflexivity.
  - intros row Hrow. vm_compute in Hrow.
    repeat (apply elem_of_cons in Hrow as [-> | Hrow]; [vm_compute; reflexivity|]).
    inversion Hrow.
  - first_match_by_evaluation.
Defined.

(** With an empty identifier the first row is replaced, though the file
    name and the lines of the comment are those of the second row. *)
Lemma updateComment_empty_id_replaces_first_row_witness :
  reviewFileContent
    (Examples.updateComment
       (CsvEntry.mk "" "/src/x.ts" "" "5-10" "Naming" "Rename this" 1 "" "" "")
       (Some Examples.notSelecting) Examples.stored).2
  = Some
      (Examples.buildCsvString
         (CsvEntry.mk "" "/src/x.ts" "" "5-10" "Naming" "Rename this" 1 "" "" "")
       +:+ LF +:+ "id-1,/src/x.ts,5-10,Naming,Rename this" +:+ LF
       +:+ "id-2,/src/y.ts,3,Naming,Rename this" +:+ LF).
Proof.
  unfold Examples.updateComment.
  rewrite (@updateComment_empty_id_replaces_first_row
             specWorkspaceUtil specEditorUtils (specStorageUtils LF) Examples.host
             "/ws/code-review.csv" "/ws"
             (CsvEntry.mk "" "/src/x.ts" "" "5-10" "Naming" "Rename this" 1 "" "" "")
             (CsvEntry.mk "" "/src/x.ts" "" "5-10" "Naming" "Rename this" 1 "" "" "")
             (Some Examples.notSelecting) Examples.stored Examples.content
             "id-0,/src/a.ts,1-2,Typo,Fix it"
             ["id-1,/src/x.ts,5-10,Naming,Rename this";
              "id-2,/src/y.ts,3,Naming,Rename this"; ""]
             eq_refl eq_refl eq_refl eq_refl).
  vm_compute. reflexivity.
Defined.

(** The example file without its second row. *)
Lemma deleteComment_rewrites_terminated_file_witness :
  reviewFileContent (Examples.deleteComment Examples.listed Examples.stored).2
  = Some ("id-0,/src/a.ts,1-2,Typo,Fix it" +:+ LF
          +:+ "id-2,/src/y.ts,3,Naming,Rename this" +:+ LF).
Proof.
  pose proof (@deleteComment_rewrites_terminated_file
                specWorkspaceUtil (specStorageUtils LF) Examples.host
                "/ws/code-review.csv" "010" ""
                ["id-0,/src/a.ts,1-2,Typo,Fix it";
                 "id-1,/src/x.ts,5-10,Naming,Rename this";
                 "id-2,/src/y.ts,3,Naming,Rename this"]
                truthy Examples.listed Examples.stored 1%nat eq_refl eq_refl) as Hrun.
  cbv zeta in Hrun. destruct Hrun as (Hfile & _).
  - repeat constructor.
  - intros l. reflexivity.
  - reflexivity.
  - repeat constructor.
  - first_match_by_evaluation.
  - exact Hfile.
Defined.

(** A template with each placeholder once, and no end line. *)
Lemma remoteUrl_custom_template_witness :
  @remoteUrl specWorkspaceUtil
    (exampleHost "https://x/{file}@{sha}#{start}-{end}" "" None)
    "abc" "/a.ts" (Some 3) None
  = "https://x/a.ts@abc#3-0".
Proof.
  rewrite (@remoteUrl_custom_template specWorkspaceUtil
             (exampleHost "https://x/{file}@{sha}#{start}-{end}" "" None)
             [Literal "https://x/"; Slot FileP; Literal "@"; Slot ShaP;
              Literal "#"; Slot StartP; Literal "-"; Slot EndP]
             "abc" "/a.ts" (Some 3) None eq_refl eq_refl).
  - reflexivity.
  - repeat constructor.
  - reflexivity.
  - reflexivity.
Defined.

Lemma remoteUrl_custom_each_placeholder_once_witness :
  @remoteUrl specWorkspaceUtil
    (exampleHost "{file}@{sha}:{start}" "https://git.example/repo" None)
    "deadbeef" "a.ts" (Some 3) None
  = "a.ts@deadbeef:3".
Proof.
  destruct (@remoteUrl_custom_each_placeholder_once specWorkspaceUtil
              (exampleHost "{file}@{sha}:{start}" "https://git.example/repo" None)
              [Slot FileP; Literal "@"; Slot ShaP; Literal ":"; Slot StartP]
              "deadbeef" "a.ts" (Some 3) None eq_refl eq_refl) as [-> _].
  - repeat constructor.
  - repeat constructor; intros Hin;
      repeat (apply elem_of_cons in Hin as [Hin | Hin]; [discriminate|]);
      inversion Hin.
  - reflexivity.
  - reflexivity.
  - reflexivity.
Defined.

(** A file named after the start placeholder. *)
Lemma remoteUrl_custom_replaces_within_file_path_witness :
  @remoteUrl specWorkspaceUtil (exampleHost "https://x/{file}?v=1" "" None)
    "abc" "/{start}.ts" (Some 3) None
  = "https://x/3.ts?v=1".
Proof.
  exact (@remoteUrl_custom_replaces_within_file_path specWorkspaceUtil
           (exampleHost "https://x/{file}?v=1" "" None)
           "https://x/" "?v=1" "" ".ts" "abc" "/{start}.ts" (Some 3) None
           eq_refl eq_refl eq_refl eq_refl eq_refl eq_refl).
Defined.

(** A file name with a dollar sign and an ampersand. *)
Lemma remoteUrl_custom_dollar_in_file_path_witness :
  @remoteUrl specWorkspaceUtil (exampleHost "https://x/{file}?v=1" "" None)
    "abc" "/a$&b.ts" (Some 3) None
  = "https://x/a{file}b.ts?v=1".
Proof.
  exact (proj1 (@remoteUrl_custom_dollar_in_file_path specWorkspaceUtil
                  (exampleHost "https://x/{file}?v=1" "" None)
                  "https://x/" "?v=1" "a" "b.ts" "abc" "/a$&b.ts" (Some 3) None
                  eq_refl eq_refl eq_refl eq_refl eq_refl) eq_refl).
Defined.

(** Outside a repository the URL of the row has no SHA segment. *)
Lemma buildCsvString_without_commit_witness :
  includes
    (@buildCsvString specWorkspaceUtil (specStorageUtils LF)
       (exampleHost "" "https://git.example/repo" None) "/ws" Examples.comment)
    "https://git.example/repo/src/x.ts#L5-L10" = true.
Proof.
  rewrite (@buildCsvString_without_commit specWorkspaceUtil (specStorageUtils LF)
             (exampleHost "" "https://git.example/repo" None) "/ws" Examples.comment
             eq_refl eq_refl eq_refl).
  vm_compute. reflexivity.
Defined.

(** An entry without label and text removes the first row. *)
Lemma deleteComment_empty_keys_remove_first_line_witness :
  exists first others,
    split Examples.content LF = first :: others
    /\ reviewFileContent
         (Examples.deleteComment (CommentListEntry.mk "" "") Examples.stored).2
       = Some (join LF (SpecModel.cleanCsvStorage others) +:+ LF).
Proof.
  exact (@deleteComment_empty_keys_remove_first_line
           specWorkspaceUtil (specStorageUtils LF) Examples.host
           "/ws/code-review.csv" (CommentListEntry.mk "" "") Examples.stored
           Examples.content eq_refl eq_refl eq_refl).
Defined.

(** A comment added to the example file and deleted again. *)
Lemma addComment_then_deleteComment_witness :
  reviewFileContent
    (Examples.deleteComment (CommentListEntry.mk "Speed" "Cache it")
       (Examples.addComment
          (CsvEntry.mk "" "" "" "" "Speed" "Cache it" 2 "" "" "id-3")
          (Some Examples.selecting) Examples.stored).2).2
  = Some Examples.content.
Proof.
  unfold Examples.deleteComment, Examples.addComment.
  rewrite (@addComment_then_deleteComment
             specWorkspaceUtil specEditorUtils (specStorageUtils LF) Examples.host
             "/ws/code-review.csv" "/ws" "010" ""
             ["id-0,/src/a.ts,1-2,Typo,Fix it";
              "id-1,/src/x.ts,5-10,Naming,Rename this";
              "id-2,/src/y.ts,3,Naming,Rename this"]
             truthy
             (CsvEntry.mk "" "" "" "" "Speed" "Cache it" 2 "" "" "id-3")
             Examples.selecting
             (TextEditor.mkSelection (TextEditor.mkPosition 7 0) (TextEditor.mkPosition 9 4))
             (CommentListEntry.mk "Speed" "Cache it") Examples.stored
             eq_refl eq_refl).
  - reflexivity.
  - repeat constructor.
  - intros l. reflexivity.
  - reflexivity.
  - repeat constructor.
  - reflexivity.
  - vm_compute. reflexivity.
  - vm_compute. reflexivity.
  - vm_compute. reflexivity.
  - intros line Hline.
    repeat (apply elem_of_cons in Hline as [-> | Hline]; [vm_compute; reflexivity|]).
    inversion Hline.
Defined.
